(** * VOKATRA: checkout and payment reconciliation

    A shallow embedding of the two Netlify functions of the repository,
    [create_checkout_session.js] and [stripe_webhook.js], and the properties
    of the order/payment consistency protocol proved about them.

    Conventions of the embedding.
    - An [async] function is a computation in the monad [M]: it threads the
      [world] (the datastore, the journal of the external calls made so far
      and the console) and either returns a value or throws.
    - The Supabase datastore and the Stripe client are external.  The
      datastore is modelled as a small relational store (tables are lists of
      rows, in insertion order); whether it answers a request with an error
      is decided by the environment ([db_rejects]), as are Stripe's answers.
      A Supabase call never throws: it resolves to [{data, error}].
    - A text field that may be [undefined] or [null] is an [option].  A
      field of the request that the functions read as a number (a quantity,
      an amount) is a [jsvalue]: the request may carry anything there.
    - A JavaScript number is a double ([number]): [*] and [+] round their
      exact result to the nearest double, so they are the exact product and
      sum only as long as the result is a safe integer.  The integer columns
      of the catalogue (prices, stocks) hold integers that are doubles. *)

From Stdlib Require Import ZArith List String Ascii Bool Lia.
Import ListNotations.

Open Scope string_scope.

(** ** JavaScript values *)

(** [!x] is false exactly for a non-empty string ([undefined], [null] and the
    empty string are falsy). *)
Definition truthy (x : option string) : bool :=
  match x with
  | Some (String _ _) => true
  | _ => false
  end.

(** [x || null] *)
Definition or_null (x : option string) : option string :=
  if truthy x then x else None.

(** [o?.f] *)
Definition optchain {A B : Type} (o : option A) (f : A -> option B) : option B :=
  match o with
  | Some a => f a
  | None => None
  end.

Notation "o ?. f" := (optchain o f) (at level 20, left associativity).

(** What a template literal prints for a value that may be [undefined]. *)
Definition show (x : option string) : string :=
  match x with
  | Some s => s
  | None => "undefined"
  end.

(** The decimal digits of an integer. *)
Definition digit (n : Z) : string :=
  String (ascii_of_nat (48 + Z.to_nat n)) EmptyString.

Fixpoint digits (fuel : nat) (n : Z) (acc : string) : string :=
  match fuel with
  | O => acc
  | S fuel' =>
      let acc' := digit (n mod 10)%Z ++ acc in
      if (n / 10 =? 0)%Z then acc' else digits fuel' (n / 10)%Z acc'
  end.

Definition show_Z (z : Z) : string :=
  let n := Z.abs z in
  (if (z <? 0)%Z then "-" else EmptyString)
  ++ digits (S (Z.to_nat (Z.log2 n))) n EmptyString.

Definition dquote : string := String "034"%char EmptyString.

(** ** JavaScript numbers *)

(** A number is a double.  The functions compute with prices, quantities and
    amounts in cents: the numbers of the embedding are the doubles that are
    integers ([Num z], where [z] has at most 53 significant bits and is
    below [2 ^ 1024]), the two infinities and [NaN]. *)
Inductive number :=
| Num (z : Z)
| Infinity (negative : bool)
| NaN.

Definition MAX_SAFE_INTEGER : Z := 2 ^ 53 - 1.

(** The double nearest to an integer, ties going to the even significand:
    up to [2 ^ 53] every integer is a double; beyond, the integer is rounded
    to 53 significant bits, and to infinity from [2 ^ 1024] on. *)
Definition round_double (z : Z) : number :=
  let a := Z.abs z in
  if (a <=? 2 ^ 53)%Z then Num z
  else
    let e := (Z.log2 a - 52)%Z in
    let m := Z.shiftr a e in
    let r := (a - Z.shiftl m e)%Z in
    let half := (2 ^ (e - 1))%Z in
    let m' := if (r <? half)%Z then m
              else if (half <? r)%Z then (m + 1)%Z
              else if Z.even m then m else (m + 1)%Z in
    let v := Z.shiftl m' e in
    if (2 ^ 1024 <=? v)%Z then Infinity (z <? 0)%Z else Num (Z.sgn z * v).

(** [x * y] *)
Definition js_mul (x y : number) : number :=
  match x, y with
  | Num a, Num b => round_double (a * b)
  | NaN, _ | _, NaN => NaN
  | Infinity s, Num b | Num b, Infinity s =>
      if (b =? 0)%Z then NaN else Infinity (xorb s (b <? 0)%Z)
  | Infinity s, Infinity t => Infinity (xorb s t)
  end.

(** [x + y] *)
Definition js_add (x y : number) : number :=
  match x, y with
  | Num a, Num b => round_double (a + b)
  | NaN, _ | _, NaN => NaN
  | Infinity s, Num _ | Num _, Infinity s => Infinity s
  | Infinity s, Infinity t => if Bool.eqb s t then Infinity s else NaN
  end.

(** [x < y]: false when an operand is [NaN]. *)
Definition js_lt (x y : number) : bool :=
  match x, y with
  | Num a, Num b => (a <? b)%Z
  | NaN, _ | _, NaN => false
  | Infinity s, Num _ => s
  | Num _, Infinity t => negb t
  | Infinity s, Infinity t => s && negb t
  end.

(** [x <= y]: false when an operand is [NaN], and [!(y < x)] otherwise. *)
Definition js_le (x y : number) : bool :=
  match x, y with
  | NaN, _ | _, NaN => false
  | _, _ => negb (js_lt y x)
  end.

Arguments round_double : simpl never.
Arguments js_mul : simpl never.
Arguments js_add : simpl never.
Arguments js_lt : simpl never.
Arguments js_le : simpl never.

(** The decimal numeral of least length, among those of the length of [a]
    with [zeros] or fewer trailing zeros, that reads back as the double [a];
    of two such numerals of the same length, the nearer to [a]. *)
Fixpoint shortest_numeral (zeros : nat) (a : Z) : Z :=
  match zeros with
  | O => a
  | S zeros' =>
      let p := (10 ^ Z.of_nat zeros)%Z in
      let lo := (a / p * p)%Z in
      let hi := (lo + p)%Z in
      let reads v := match round_double v with
                     | Num b => (b =? a)%Z
                     | _ => false
                     end in
      match reads lo, reads hi with
      | true, true =>
          if (a - lo <? hi - a)%Z then lo
          else if (hi - a <? a - lo)%Z then hi
          else if Z.even (a / p) then lo else hi
      | true, false => lo
      | false, true => hi
      | false, false => shortest_numeral zeros' a
      end
  end.

Fixpoint strip_zeros (fuel : nat) (v : Z) : Z :=
  match fuel with
  | O => v
  | S fuel' => if (v mod 10 =? 0)%Z then strip_zeros fuel' (v / 10)%Z else v
  end.

(** [Number.prototype.toString] on a positive integer: its digits below
    [2 ^ 53]; the shortest numeral that reads back as the number beyond,
    in exponent notation from [10 ^ 21] on. *)
Definition show_positive (a : Z) : string :=
  if (a <=? 2 ^ 53)%Z then show_Z a
  else
    let n := String.length (show_Z a) in
    let v := shortest_numeral (n - 1) a in
    if (v <? 10 ^ 21)%Z then show_Z v
    else
      let n' := String.length (show_Z v) in
      let s := show_Z (strip_zeros n' v) in
      match s with
      | String d EmptyString => String d EmptyString
      | String d rest => String d ("." ++ rest)
      | EmptyString => EmptyString
      end ++ "e+" ++ show_Z (Z.of_nat n' - 1).

(** What a template literal prints for a number. *)
Definition show_number (n : number) : string :=
  match n with
  | Num z => (if (z <? 0)%Z then "-" else EmptyString) ++ show_positive (Z.abs z)
  | Infinity negative => if negative then "-Infinity" else "Infinity"
  | NaN => "NaN"
  end.

Arguments show_number : simpl never.

(** ** What a request carries where a number is expected *)

(** A value of the parsed body.  For a string, and for an object or an array,
    the value comes with the number it reads as ([NaN] unless its text is a
    numeral); an object or an array also comes with the text it converts
    to. *)
Inductive jsvalue :=
| JUndefined
| JNull
| JBoolean (b : bool)
| JNumber (n : number)
| JString (s : string) (reading : number)
| JObject (text : string) (reading : number).

(** [ToNumber], as [<], [<=] and [*] apply it to an operand. *)
Definition ToNumber (v : jsvalue) : number :=
  match v with
  | JUndefined => NaN
  | JNull => Num 0
  | JBoolean b => Num (if b then 1 else 0)
  | JNumber n => n
  | JString _ reading => reading
  | JObject _ reading => reading
  end.

(** [ToBoolean]: [!v] is its negation. *)
Definition ToBoolean (v : jsvalue) : bool :=
  match v with
  | JUndefined | JNull => false
  | JBoolean b => b
  | JNumber (Num z) => negb (z =? 0)%Z
  | JNumber (Infinity _) => true
  | JNumber NaN => false
  | JString s _ => negb (String.eqb s EmptyString)
  | JObject _ _ => true
  end.

(** What a template literal prints for a value. *)
Definition show_value (v : jsvalue) : string :=
  match v with
  | JUndefined => "undefined"
  | JNull => "null"
  | JBoolean b => if b then "true" else "false"
  | JNumber n => show_number n
  | JString s _ => s
  | JObject text _ => text
  end.

(** The integer a value is, when it is one. *)
Definition integer (v : jsvalue) : Z :=
  match v with
  | JNumber (Num z) => z
  | _ => 0%Z
  end.

Definition is_integer (v : jsvalue) : bool :=
  match v with
  | JNumber (Num _) => true
  | _ => false
  end.

(** ** The records of the datastore (spec section 3) *)

Inductive payment_status := pending | paid | failed | refunded.

Inductive order_status := status_new | status_confirmed | status_cancelled.

Record product := {
  p_id : string;
  p_name : string;
  p_unit_price_cents : Z;
  p_stock_qty : Z;
  p_active : bool;
  p_emoji : string
}.

Record delivery_date := {
  dd_id : string;
  dd_delivery_date : string;
  dd_label : string;
  dd_active : bool
}.

(** The object given to [from('orders').insert]. *)
Record order_insert := {
  oi_status : order_status;
  oi_payment_status : payment_status;
  oi_payment_method : string;
  oi_customer_first_name : option string;
  oi_customer_last_name : option string;
  oi_customer_address : option string;
  oi_customer_phone : option string;
  oi_customer_email : option string;
  oi_church_name : option string;
  oi_section_name : option string;
  oi_delivery_address : option string;
  oi_delivery_date_id : option string;
  oi_currency : string;
  oi_total_amount_cents : number
}.

(** A row of [orders]: the inserted object, the generated id and the columns
    filled in later. *)
Record order := {
  o_id : nat;
  o_fields : order_insert;
  o_payment_status : payment_status;
  o_stripe_checkout_session_id : option string;
  o_stripe_payment_intent_id : option string;
  o_updated_at : option string
}.

Definition o_total_amount_cents (o : order) : number :=
  oi_total_amount_cents (o_fields o).

(** A row of [order_items]; before [order_id] is attached it is [None].  The
    quantity is the value the cart line carries, the line total the number
    computed from it. *)
Record order_item := {
  it_product_id : string;
  it_product_name_snapshot : string;
  it_product_emoji_snapshot : string;
  it_unit_price_cents_snapshot : Z;
  it_qty : jsvalue;
  it_line_total_cents : number;
  it_order_id : option nat
}.

(** The object given to [from('donations').insert]. *)
Record donation_insert := {
  di_donor_first_name : option string;
  di_donor_last_name : option string;
  di_donor_email : option string;
  di_donor_phone : option string;
  di_church_name : option string;
  di_section_name : option string;
  di_message : option string;
  di_amount_cents : jsvalue;
  di_currency : string;
  di_payment_status : payment_status
}.

Record donation_row := {
  d_id : nat;
  d_fields : donation_insert;
  d_payment_status : payment_status;
  d_stripe_checkout_session_id : option string;
  d_stripe_payment_intent_id : option string
}.

Record database := {
  db_products : list product;
  db_delivery_dates : list delivery_date;
  db_orders : list order;
  db_order_items : list order_item;
  db_donations : list donation_row;
  db_next_id : nat
}.

(** ** The requests a function sends to its collaborators *)

(** The columns an [update] sets. *)
Record patch := {
  set_payment_status : option payment_status;
  set_stripe_checkout_session_id : option string;
  set_updated_at : option string
}.

(** The filter of an [update] or a [delete]: [.eq('id', _)] or
    [.eq('stripe_payment_intent_id', _)]. *)
Inductive row_filter :=
| EqId (id : nat)
| EqPaymentIntent (payment_intent : string).

Record stripe_line_item := {
  li_currency : string;
  li_unit_amount : jsvalue;
  li_name : string;
  li_description : string;
  li_quantity : jsvalue
}.

Inductive session_metadata :=
| MetaOrder (order_id : nat)
| MetaDonation (donation_id : nat).

(** The argument of [stripe.checkout.sessions.create]. *)
Record session_params := {
  sp_payment_method_types : list string;
  sp_mode : string;
  sp_line_items : list stripe_line_item;
  sp_metadata : session_metadata;
  sp_customer_email : option string;
  sp_success_url : string;
  sp_cancel_url : string;
  sp_expires_at : option Z
}.

Record stripe_session := { session_id : string; session_url : string }.

Inductive request :=
| SelectDeliveryDate (dateId : option string)
| SelectProductsIn (productIds : list string)
| InsertOrder (o : order_insert)
| InsertOrderItems (rows : list order_item)
| DeleteOrders (f : row_filter)
| UpdateOrders (f : row_filter) (p : patch)
| InsertDonation (d : donation_insert)
| DeleteDonations (f : row_filter)
| UpdateDonations (f : row_filter) (p : patch)
| Rpc (name : string) (p_stripe_session_id : string)
      (p_stripe_payment_intent : option string).

(** The result of an atomic procedure: [{success, order_id | donation_id}]. *)
Record rpc_result := { success : bool; entity_id : option nat }.

(** What [data] holds in the [{data, error}] a datastore call resolves to. *)
Inductive payload :=
| NoData
| DateRow (d : delivery_date)
| ProductRows (ps : list product)
| IdRow (id : nat)
| RpcData (r : rpc_result).

Record reply := { data : payload; error : option string }.

Definition reply_ok (p : payload) : reply := {| data := p; error := None |}.
Definition reply_error (e : string) : reply := {| data := NoData; error := Some e |}.

(** ** The events and requests the functions receive *)

Record http_event := {
  httpMethod : string;
  headers : list (string * string);
  body : string
}.

(** [event.headers[name]] *)
Fixpoint header (name : string) (hs : list (string * string)) : option string :=
  match hs with
  | [] => None
  | (k, v) :: hs' => if String.eqb k name then Some v else header name hs'
  end.

(** A line of the cart as the client sends it.  [ci_client_price_cents]
    stands for whatever price the client attaches to the line. *)
Record cart_item := {
  productId : string;
  qty : jsvalue;
  ci_client_price_cents : option Z
}.

Record customer_info := {
  firstName : option string;
  lastName : option string;
  address : option string;
  churchName : option string;
  sectionName : option string;
  phone : option string;
  email : option string
}.

Record delivery_info := {
  delivery_address : option string;
  dateId : option string
}.

Record donation_info := {
  don_firstName : option string;
  don_lastName : option string;
  don_email : option string;
  don_phone : option string;
  don_church : option string;
  don_section : option string;
  don_message : option string;
  amountCents : jsvalue
}.

(** The parsed body of a checkout request, read through its four
    properties: [{cart, customer, delivery, donation}].  A cart is an array
    of objects. *)
Record request_body := {
  rb_cart : option (list cart_item);
  rb_customer : option customer_info;
  rb_delivery : option delivery_info;
  rb_donation : option donation_info
}.

(** What [JSON.parse] returns: [null], or a value whose properties can be
    read. *)
Inductive parsed_json :=
| JSON_null
| JSON_value (b : request_body).

(** The object of a Stripe event ([stripeEvent.data.object]): a checkout
    session, a payment intent or a charge, read through the fields below. *)
Record stripe_metadata := {
  md_type : option string;
  md_session_id : option string
}.

Record stripe_object := {
  so_id : string;
  so_payment_intent : option string;
  so_metadata : option stripe_metadata
}.

Record stripe_event := {
  ev_type : string;
  ev_object : stripe_object
}.

(** What a function answers. *)
Inductive json_body :=
| JError (message : string)
| JOrderCheckout (url : string) (order_id : nat)
| JDonationCheckout (url : string) (donation_id : nat)
| JReceived.

Inductive response_body :=
| Json (j : json_body)
| Text (s : string).

Record http_response := {
  statusCode : Z;
  resp_headers : list (string * string);
  resp_body : response_body
}.

(** ** The environment: the collaborators outside the repository *)

Record env := {
  (** the datastore answers this request with an error *)
  db_rejects : request -> option string;
  (** the atomic procedures other than [confirm_order_payment] *)
  rpc_other : string -> string -> option string -> database -> rpc_result * database;
  (** [stripe.checkout.sessions.create]: throws ([inl]) or gives a session *)
  stripe_sessions_create : session_params -> string + stripe_session;
  (** [stripe.webhooks.constructEvent body sig secret]: throws or gives the event *)
  stripe_constructEvent : string -> option string -> option string -> string + stripe_event;
  (** [JSON.parse]: [None] when it throws *)
  JSON_parse : string -> option parsed_json;
  SITE_URL : option string;
  STRIPE_WEBHOOK_SECRET : option string;
  (** [Date.now()] and [new Date().toISOString()] *)
  Date_now : Z;
  Date_toISOString : string
}.

(** ** The datastore *)

Definition opt_string_eqb (x : option string) (s : string) : bool :=
  match x with
  | Some x' => String.eqb x' s
  | None => false
  end.

Definition order_matches (f : row_filter) (o : order) : bool :=
  match f with
  | EqId id => Nat.eqb (o_id o) id
  | EqPaymentIntent pi => opt_string_eqb (o_stripe_payment_intent_id o) pi
  end.

Definition donation_matches (f : row_filter) (d : donation_row) : bool :=
  match f with
  | EqId id => Nat.eqb (d_id d) id
  | EqPaymentIntent pi => opt_string_eqb (d_stripe_payment_intent_id d) pi
  end.

Definition or_keep {A : Type} (new : option A) (old : A) : A :=
  match new with
  | Some a => a
  | None => old
  end.

Definition patch_order (p : patch) (o : order) : order :=
  {| o_id := o_id o;
     o_fields := o_fields o;
     o_payment_status := or_keep (set_payment_status p) (o_payment_status o);
     o_stripe_checkout_session_id :=
       match set_stripe_checkout_session_id p with
       | Some s => Some s
       | None => o_stripe_checkout_session_id o
       end;
     o_stripe_payment_intent_id := o_stripe_payment_intent_id o;
     o_updated_at :=
       match set_updated_at p with
       | Some t => Some t
       | None => o_updated_at o
       end |}.

Definition patch_donation (p : patch) (d : donation_row) : donation_row :=
  {| d_id := d_id d;
     d_fields := d_fields d;
     d_payment_status := or_keep (set_payment_status p) (d_payment_status d);
     d_stripe_checkout_session_id :=
       match set_stripe_checkout_session_id p with
       | Some s => Some s
       | None => d_stripe_checkout_session_id d
       end;
     d_stripe_payment_intent_id := d_stripe_payment_intent_id d |}.

Definition new_order (id : nat) (o : order_insert) : order :=
  {| o_id := id;
     o_fields := o;
     o_payment_status := oi_payment_status o;
     o_stripe_checkout_session_id := None;
     o_stripe_payment_intent_id := None;
     o_updated_at := None |}.

Definition new_donation (id : nat) (d : donation_insert) : donation_row :=
  {| d_id := id;
     d_fields := d;
     d_payment_status := di_payment_status d;
     d_stripe_checkout_session_id := None;
     d_stripe_payment_intent_id := None |}.

Definition with_orders (db : database) (os : list order) (next : nat) : database :=
  {| db_products := db_products db;
     db_delivery_dates := db_delivery_dates db;
     db_orders := os;
     db_order_items := db_order_items db;
     db_donations := db_donations db;
     db_next_id := next |}.

Definition with_order_items (db : database) (its : list order_item) : database :=
  {| db_products := db_products db;
     db_delivery_dates := db_delivery_dates db;
     db_orders := db_orders db;
     db_order_items := its;
     db_donations := db_donations db;
     db_next_id := db_next_id db |}.

Definition with_donations (db : database) (ds : list donation_row) (next : nat) : database :=
  {| db_products := db_products db;
     db_delivery_dates := db_delivery_dates db;
     db_orders := db_orders db;
     db_order_items := db_order_items db;
     db_donations := ds;
     db_next_id := next |}.

Definition with_products (db : database) (ps : list product) : database :=
  {| db_products := ps;
     db_delivery_dates := db_delivery_dates db;
     db_orders := db_orders db;
     db_order_items := db_order_items db;
     db_donations := db_donations db;
     db_next_id := db_next_id db |}.

(** One line item taken off the stock of its product, by the quantity the
    integer column [qty] holds. *)
Definition decrement_stock (ps : list product) (it : order_item) : list product :=
  map (fun p =>
         if String.eqb (p_id p) (it_product_id it)
         then {| p_id := p_id p;
                 p_name := p_name p;
                 p_unit_price_cents := p_unit_price_cents p;
                 p_stock_qty := (p_stock_qty p - integer (it_qty it))%Z;
                 p_active := p_active p;
                 p_emoji := p_emoji p |}
         else p) ps.

Definition items_of_order (id : nat) (db : database) : list order_item :=
  filter (fun it => match it_order_id it with
                    | Some id' => Nat.eqb id' id
                    | None => false
                    end) (db_order_items db).

Definition mark_paid (id : nat) (payment_intent : option string) (o : order) : order :=
  if Nat.eqb (o_id o) id
  then {| o_id := o_id o;
          o_fields := o_fields o;
          o_payment_status := paid;
          o_stripe_checkout_session_id := o_stripe_checkout_session_id o;
          o_stripe_payment_intent_id := payment_intent;
          o_updated_at := o_updated_at o |}
  else o.

Definition is_pending (s : payment_status) : bool :=
  match s with
  | pending => true
  | _ => false
  end.

(** Modelled from the spec: the atomic procedure [confirm_order_payment],
    which lives in the datastore and is not among the source files.  Spec
    section 4.2: as one atomic unit (a) verify that the order of the session
    is still confirmable, a replay having no side effect and reporting
    [success = false]; (b) decrement each line item's product stock by its
    quantity; (c) set [payment_status = paid] and attach the payment intent.
    Section 5: the decrement rejects insufficient stock.  The result is
    [{success, order_id}]. *)
Definition confirm_order_payment (sessionId : string) (payment_intent : option string)
    (db : database) : rpc_result * database :=
  match find (fun o => opt_string_eqb (o_stripe_checkout_session_id o) sessionId)
             (db_orders db) with
  | None => ({| success := false; entity_id := None |}, db)
  | Some o =>
      if is_pending (o_payment_status o) then
        let items := items_of_order (o_id o) db in
        let ps := fold_left decrement_stock items (db_products db) in
        if forallb (fun p => (0 <=? p_stock_qty p)%Z
                             || negb (existsb (fun it => String.eqb (p_id p) (it_product_id it))
                                        items)) ps
        then ({| success := true; entity_id := Some (o_id o) |},
              with_orders (with_products db ps)
                (map (mark_paid (o_id o) payment_intent) (db_orders db))
                (db_next_id db))
        else ({| success := false; entity_id := Some (o_id o) |}, db)
      else ({| success := false; entity_id := Some (o_id o) |}, db)
  end.

Section Datastore.

Context (E : env).

(** Modelled from the spec: the datastore collaborator, which is outside the
    source files.  Spec section 6: keyed read, insert, update and delete on
    the tables, and the atomic procedures; section 3: the id of a record is
    generated.  This is the datastore executing a request it accepts: a
    select with [.in] returns the rows whose id is listed, [.single()] is an
    error unless exactly one row matches, an insert followed by
    [.select('id').single()] gives the generated id, an update or a delete
    with [.eq] applies to every row the filter matches. *)
Definition execute (r : request) (db : database) : reply * database :=
  match r with
  | SelectDeliveryDate id =>
      match filter (fun d => opt_string_eqb id (dd_id d)) (db_delivery_dates db) with
      | [d] => (reply_ok (DateRow d), db)
      | _ => (reply_error "PGRST116", db)
      end
  | SelectProductsIn ids =>
      (reply_ok (ProductRows
         (filter (fun p => existsb (String.eqb (p_id p)) ids) (db_products db))), db)
  | InsertOrder o =>
      (reply_ok (IdRow (db_next_id db)),
       with_orders db (db_orders db ++ [new_order (db_next_id db) o]) (S (db_next_id db)))
  | InsertOrderItems rows =>
      (reply_ok NoData, with_order_items db (db_order_items db ++ rows))
  | DeleteOrders f =>
      (reply_ok NoData,
       with_orders db (filter (fun o => negb (order_matches f o)) (db_orders db))
         (db_next_id db))
  | UpdateOrders f p =>
      (reply_ok NoData,
       with_orders db
         (map (fun o => if order_matches f o then patch_order p o else o) (db_orders db))
         (db_next_id db))
  | InsertDonation d =>
      (reply_ok (IdRow (db_next_id db)),
       with_donations db (db_donations db ++ [new_donation (db_next_id db) d])
         (S (db_next_id db)))
  | DeleteDonations f =>
      (reply_ok NoData,
       with_donations db (filter (fun d => negb (donation_matches f d)) (db_donations db))
         (db_next_id db))
  | UpdateDonations f p =>
      (reply_ok NoData,
       with_donations db
         (map (fun d => if donation_matches f d then patch_donation p d else d)
            (db_donations db))
         (db_next_id db))
  | Rpc name sessionId payment_intent =>
      let '(r, db') :=
        if String.eqb name "confirm_order_payment"
        then confirm_order_payment sessionId payment_intent db
        else rpc_other E name sessionId payment_intent db in
      (reply_ok (RpcData r), db')
  end.

End Datastore.

(** ** The world and the monad of the functions *)

Inductive console_level := level_log | level_warn | level_error.

Inductive console_arg :=
| Str (s : string)
| ErrorObject (message : string)
| DataObject (d : payload).

Record console_entry := { level : console_level; args : list console_arg }.

(** An entry of the journal: a call to a collaborator and the error it gave. *)
Inductive call :=
| Datastore (r : request) (err : option string)
| Stripe (p : session_params) (err : option string).

Record world := {
  w_db : database;
  w_calls : list call;
  w_console : list console_entry
}.

Inductive outcome (A : Type) :=
| Returned (a : A)
| Thrown (e : string).

Arguments Returned {A} a.
Arguments Thrown {A} e.

Definition M (A : Type) : Type := world -> outcome A * world.

Definition ret {A : Type} (a : A) : M A := fun w => (Returned a, w).

Definition throw {A : Type} (e : string) : M A := fun w => (Thrown e, w).

Definition bind {A B : Type} (m : M A) (k : A -> M B) : M B :=
  fun w =>
    match m w with
    | (Returned a, w') => k a w'
    | (Thrown e, w') => (Thrown e, w')
    end.

Notation "x <- m ;; k" := (bind m (fun x => k))
  (at level 100, m at next level, right associativity).
Notation "m ;;; k" := (bind m (fun _ => k))
  (at level 100, right associativity).

(** [try { m } catch (err) { ... }], the caught error made a value. *)
Definition attempt {A : Type} (m : M A) : M (string + A) :=
  fun w =>
    match m w with
    | (Returned a, w') => (Returned (inr a), w')
    | (Thrown e, w') => (Returned (inl e), w')
    end.

(** Reading a property of [undefined] or [null] throws. *)
Definition deref {A : Type} (o : option A) : M A :=
  match o with
  | Some a => ret a
  | None => throw "TypeError"
  end.

Definition console (l : console_level) (xs : list console_arg) : M unit :=
  fun w =>
    (Returned tt,
     {| w_db := w_db w;
        w_calls := w_calls w;
        w_console := w_console w ++ [{| level := l; args := xs |}] |}).

(** A function is invoked in a world whose journal and console are empty. *)
Definition fresh (db : database) : world :=
  {| w_db := db; w_calls := []; w_console := [] |}.

Definition invoke {A : Type} (m : M A) (db : database) : outcome A * world :=
  m (fresh db).

Definition as_date (p : payload) : option delivery_date :=
  match p with DateRow d => Some d | _ => None end.

Definition as_products (p : payload) : option (list product) :=
  match p with ProductRows ps => Some ps | _ => None end.

Definition as_id (p : payload) : option nat :=
  match p with IdRow id => Some id | _ => None end.

Definition as_rpc (p : payload) : option rpc_result :=
  match p with RpcData r => Some r | _ => None end.

Section Collaborators.

Context (E : env).

(** [await supabase...]: the environment may make the datastore answer with
    an error, which leaves the tables as they are. *)
Definition supabase (r : request) : M reply :=
  fun w =>
    match db_rejects E r with
    | Some e =>
        (Returned (reply_error e),
         {| w_db := w_db w;
            w_calls := w_calls w ++ [Datastore r (Some e)];
            w_console := w_console w |})
    | None =>
        let '(rep, db') := execute E r (w_db w) in
        (Returned rep,
         {| w_db := db';
            w_calls := w_calls w ++ [Datastore r (error rep)];
            w_console := w_console w |})
    end.

(** [await stripe.checkout.sessions.create(p)] *)
Definition stripe_checkout_sessions_create (p : session_params) : M stripe_session :=
  fun w =>
    match stripe_sessions_create E p with
    | inl e =>
        (Thrown e,
         {| w_db := w_db w;
            w_calls := w_calls w ++ [Stripe p (Some e)];
            w_console := w_console w |})
    | inr s =>
        (Returned s,
         {| w_db := w_db w;
            w_calls := w_calls w ++ [Stripe p None];
            w_console := w_console w |})
    end.

End Collaborators.

(** ** create_checkout_session.js *)

Module CreateCheckoutSession.

(** [response(statusCode, body)]: [body] stands for [JSON.stringify(body)]. *)
Definition response (statusCode : Z) (body : json_body) : http_response :=
  {| statusCode := statusCode;
     resp_headers := [("Content-Type", "application/json");
                      ("Access-Control-Allow-Origin", "*")];
     resp_body := Json body |}.

(** The messages of the product validation. *)
Definition msg_not_found (cartItem : cart_item) : string :=
  "Produit introuvable : " ++ productId cartItem.

Definition msg_inactive (product : product) : string :=
  "Produit non disponible : " ++ p_name product.

Definition msg_stock (product : product) (cartItem : cart_item) : string :=
  "Stock insuffisant pour " ++ dquote ++ p_name product ++ dquote
  ++ ". Disponible : " ++ show_number (Num (p_stock_qty product))
  ++ ", demandé : " ++ show_value (qty cartItem).

Definition msg_qty (product : product) : string :=
  "Quantité invalide pour : " ++ p_name product.

(** The three accumulators of the validation loop. *)
Record lines := {
  orderItems : list order_item;
  stripeLineItems : list stripe_line_item;
  totalCents : number
}.

Definition no_lines : lines :=
  {| orderItems := []; stripeLineItems := []; totalCents := Num 0 |}.

(** [for (const cartItem of cart) { ... }]: a [return] inside the loop ends
    the function with that response ([inl]).  The stock and the price are
    numbers of the catalogue; [<], [<=] and [*] read the quantity as a
    number. *)
Fixpoint cart_loop (products : list product) (cart : list cart_item) (acc : lines)
    : http_response + lines :=
  match cart with
  | [] => inr acc
  | cartItem :: rest =>
      match find (fun p => String.eqb (p_id p) (productId cartItem)) products with
      | None => inl (response 400 (JError (msg_not_found cartItem)))
      | Some product =>
          if negb (p_active product) then
            inl (response 400 (JError (msg_inactive product)))
          else if js_lt (Num (p_stock_qty product)) (ToNumber (qty cartItem)) then
            inl (response 400 (JError (msg_stock product cartItem)))
          else if js_le (ToNumber (qty cartItem)) (Num 0) then
            inl (response 400 (JError (msg_qty product)))
          else
            let lineTotalCents :=
              js_mul (Num (p_unit_price_cents product)) (ToNumber (qty cartItem)) in
            cart_loop products rest
              {| orderItems := orderItems acc ++
                   [{| it_product_id := p_id product;
                       it_product_name_snapshot := p_name product;
                       it_product_emoji_snapshot := p_emoji product;
                       it_unit_price_cents_snapshot := p_unit_price_cents product;
                       it_qty := qty cartItem;
                       it_line_total_cents := lineTotalCents;
                       it_order_id := None |}];
                 stripeLineItems := stripeLineItems acc ++
                   [{| li_currency := "eur";
                       li_unit_amount := JNumber (Num (p_unit_price_cents product));
                       li_name := p_name product;
                       li_description :=
                         p_emoji product ++ " Projet VOKATRA – FLM Bordeaux";
                       li_quantity := qty cartItem |}];
                 totalCents := js_add (totalCents acc) lineTotalCents |}
      end
  end.

(** [{...item, order_id}] *)
Definition with_order_id (order_id : nat) (item : order_item) : order_item :=
  {| it_product_id := it_product_id item;
     it_product_name_snapshot := it_product_name_snapshot item;
     it_product_emoji_snapshot := it_product_emoji_snapshot item;
     it_unit_price_cents_snapshot := it_unit_price_cents_snapshot item;
     it_qty := it_qty item;
     it_line_total_cents := it_line_total_cents item;
     it_order_id := Some order_id |}.

Definition set_status (s : payment_status) : patch :=
  {| set_payment_status := Some s;
     set_stripe_checkout_session_id := None;
     set_updated_at := None |}.

Definition set_session (sessionId : string) : patch :=
  {| set_payment_status := None;
     set_stripe_checkout_session_id := Some sessionId;
     set_updated_at := None |}.

Section Functions.

Context (E : env).

Definition success_url : string :=
  show (SITE_URL E) ++ "/success?session_id={CHECKOUT_SESSION_ID}".

Definition cancel_url : string := show (SITE_URL E) ++ "/cancel".

(** The loop over [required] at the head of the source function only reads
    fields and has an empty body; it has no counterpart here. *)
Definition handleOrder (cart : option (list cart_item)) (customer : option customer_info)
    (delivery : option delivery_info) : M http_response :=
  if negb (truthy (customer ?. firstName)) then
    ret (response 400 (JError "Prénom obligatoire"))
  else if negb (truthy (customer ?. lastName)) then
    ret (response 400 (JError "Nom obligatoire"))
  else if negb (truthy (customer ?. address)) then
    ret (response 400 (JError "Adresse obligatoire"))
  else if negb (truthy (customer ?. churchName)) then
    ret (response 400 (JError "Nom d'église obligatoire"))
  else if negb (truthy (customer ?. sectionName)) then
    ret (response 400 (JError "Section obligatoire"))
  else if negb (truthy (delivery ?. delivery_address)) then
    ret (response 400 (JError "Adresse de livraison obligatoire"))
  else if negb (truthy (delivery ?. dateId)) then
    ret (response 400 (JError "Date de livraison obligatoire"))
  else if match cart with Some (_ :: _) => false | _ => true end then
    ret (response 400 (JError "Panier vide"))
  else
    (* Validation de la date de livraison *)
    r <- supabase E (SelectDeliveryDate (delivery ?. dateId)) ;;
    match error r, as_date (data r) with
    | Some _, _ | None, None =>
        ret (response 400 (JError "Date de livraison introuvable"))
    | None, Some deliveryDate =>
        if negb (dd_active deliveryDate) then
          ret (response 400 (JError "Cette date de livraison n'est plus disponible"))
        else
          (* Validation des produits (prix + stock côté serveur) *)
          cart <- deref cart ;;
          let productIds := map productId cart in
          r <- supabase E (SelectProductsIn productIds) ;;
          match error r with
          | Some _ =>
              ret (response 500 (JError "Erreur lors de la récupération des produits"))
          | None =>
              products <- deref (as_products (data r)) ;;
              match cart_loop products cart no_lines with
              | inl rejected => ret rejected
              | inr validated =>
                  (* Créer la commande en DB (payment_status = pending) *)
                  customer <- deref customer ;;
                  delivery <- deref delivery ;;
                  r <- supabase E (InsertOrder
                         {| oi_status := status_new;
                            oi_payment_status := pending;
                            oi_payment_method := "stripe";
                            oi_customer_first_name := firstName customer;
                            oi_customer_last_name := lastName customer;
                            oi_customer_address := address customer;
                            oi_customer_phone := or_null (phone customer);
                            oi_customer_email := or_null (email customer);
                            oi_church_name := churchName customer;
                            oi_section_name := sectionName customer;
                            oi_delivery_address := delivery_address delivery;
                            oi_delivery_date_id := dateId delivery;
                            oi_currency := "EUR";
                            oi_total_amount_cents := totalCents validated |}) ;;
                  match error r with
                  | Some orderError =>
                      console level_error
                        [Str "Erreur création commande:"; ErrorObject orderError] ;;;
                      ret (response 500 (JError "Erreur lors de la création de la commande"))
                  | None =>
                      order_id <- deref (as_id (data r)) ;;
                      (* Créer les lignes de commande *)
                      let itemsWithOrderId :=
                        map (with_order_id order_id) (orderItems validated) in
                      r <- supabase E (InsertOrderItems itemsWithOrderId) ;;
                      match error r with
                      | Some itemsError =>
                          console level_error
                            [Str "Erreur création order_items:"; ErrorObject itemsError] ;;;
                          (* Annuler la commande orpheline *)
                          supabase E (DeleteOrders (EqId order_id)) ;;;
                          ret (response 500
                                 (JError "Erreur lors de l'enregistrement des articles"))
                      | None =>
                          (* Créer la session Stripe Checkout *)
                          created <- attempt (stripe_checkout_sessions_create E
                            {| sp_payment_method_types := ["card"];
                               sp_mode := "payment";
                               sp_line_items := stripeLineItems validated;
                               sp_metadata := MetaOrder order_id;
                               sp_customer_email := or_null (email customer);
                               sp_success_url := success_url;
                               sp_cancel_url := cancel_url;
                               sp_expires_at := Some (Date_now E / 1000 + 1800)%Z |}) ;;
                          match created with
                          | inl stripeError =>
                              console level_error
                                [Str "Erreur Stripe:"; ErrorObject stripeError] ;;;
                              (* Mettre la commande en failed *)
                              supabase E (UpdateOrders (EqId order_id) (set_status failed)) ;;;
                              ret (response 500
                                     (JError "Erreur lors de la création du paiement Stripe"))
                          | inr session =>
                              (* Enregistrer l'ID de session Stripe *)
                              supabase E (UpdateOrders (EqId order_id)
                                            (set_session (session_id session))) ;;;
                              (* Retourner l'URL de paiement *)
                              ret (response 200
                                     (JOrderCheckout (session_url session) order_id))
                          end
                      end
                  end
              end
          end
    end.

Definition handleDonation (donation : donation_info) : M http_response :=
  if negb (truthy (don_firstName donation)) then
    ret (response 400 (JError "Prénom obligatoire"))
  else if negb (truthy (don_lastName donation)) then
    ret (response 400 (JError "Nom obligatoire"))
  else if negb (ToBoolean (amountCents donation))
          || js_lt (ToNumber (amountCents donation)) (Num 100) then
    ret (response 400 (JError "Montant minimum : 1 €"))
  else
    (* Créer le don en DB *)
    r <- supabase E (InsertDonation
           {| di_donor_first_name := don_firstName donation;
              di_donor_last_name := don_lastName donation;
              di_donor_email := or_null (don_email donation);
              di_donor_phone := or_null (don_phone donation);
              di_church_name := or_null (don_church donation);
              di_section_name := or_null (don_section donation);
              di_message := or_null (don_message donation);
              di_amount_cents := amountCents donation;
              di_currency := "EUR";
              di_payment_status := pending |}) ;;
    match error r with
    | Some donError =>
        console level_error [Str "Erreur création don:"; ErrorObject donError] ;;;
        ret (response 500 (JError "Erreur lors de la création du don"))
    | None =>
        don_id <- deref (as_id (data r)) ;;
        (* Créer la session Stripe *)
        created <- attempt (stripe_checkout_sessions_create E
          {| sp_payment_method_types := ["card"];
             sp_mode := "payment";
             sp_line_items :=
               [{| li_currency := "eur";
                   li_unit_amount := amountCents donation;
                   li_name := "Don – Projet VOKATRA";
                   li_description := "FLM Bordeaux · Merci pour votre soutien 🙏";
                   li_quantity := JNumber (Num 1) |}];
             sp_metadata := MetaDonation don_id;
             sp_customer_email := or_null (don_email donation);
             sp_success_url := success_url;
             sp_cancel_url := cancel_url;
             sp_expires_at := None |}) ;;
        match created with
        | inl stripeError =>
            console level_error [Str "Erreur Stripe don:"; ErrorObject stripeError] ;;;
            supabase E (DeleteDonations (EqId don_id)) ;;;
            ret (response 500 (JError "Erreur Stripe"))
        | inr session =>
            (* Enregistrer l'ID de session *)
            supabase E (UpdateDonations (EqId don_id)
                          (set_session (session_id session))) ;;;
            ret (response 200 (JDonationCheckout (session_url session) don_id))
        end
    end.

(** [exports.handler].  The destructuring of the parsed body is outside the
    [try]: on [null] it throws. *)
Definition handler (event : http_event) : M http_response :=
  if negb (String.eqb (httpMethod event) "POST") then
    ret (response 405 (JError "Method not allowed"))
  else
    match JSON_parse E (body event) with
    | None => ret (response 400 (JError "Corps de requête invalide (JSON attendu)"))
    | Some JSON_null => throw "TypeError"
    | Some (JSON_value body) =>
        match rb_donation body with
        | Some donation => handleDonation donation
        | None => handleOrder (rb_cart body) (rb_customer body) (rb_delivery body)
        end
    end.

End Functions.

End CreateCheckoutSession.

(** ** stripe_webhook.js *)

Module StripeWebhook.

Definition plain (statusCode : Z) (body : response_body) : http_response :=
  {| statusCode := statusCode; resp_headers := []; resp_body := body |}.

Definition show_id (id : option nat) : string :=
  match id with
  | Some n => show_Z (Z.of_nat n)
  | None => "undefined"
  end.

(** [data?.success] *)
Definition data_success (p : payload) : bool :=
  match as_rpc p with
  | Some d => success d
  | None => false
  end.

Definition data_entity_id (p : payload) : option nat :=
  match as_rpc p with
  | Some d => entity_id d
  | None => None
  end.

Section Functions.

Context (E : env).

Definition handlePaymentConfirmed (session : stripe_object) : M unit :=
  let sessionId := so_id session in
  let paymentIntent := so_payment_intent session in
  let type := so_metadata session ?. md_type in
  console level_log
    [Str ("💳 Paiement confirmé - session: " ++ sessionId ++ " - type: " ++ show type)] ;;;
  if opt_string_eqb type "order" then
    (* Appeler la RPC atomique (confirm + décrément stock) *)
    r <- supabase E (Rpc "confirm_order_payment" sessionId paymentIntent) ;;
    match error r with
    | Some error =>
        console level_error
          [Str "❌ Erreur RPC confirm_order_payment:"; ErrorObject error] ;;;
        throw error
    | None =>
        if negb (data_success (data r)) then
          (* Pas une erreur critique (peut être déjà traité = idempotence) *)
          console level_warn
            [Str "⚠️ confirm_order_payment retourne success=false:"; DataObject (data r)]
        else
          console level_log
            [Str ("✅ Commande confirmée : " ++ show_id (data_entity_id (data r)))]
    end
  else if opt_string_eqb type "donation" then
    r <- supabase E (Rpc "confirm_donation_payment" sessionId paymentIntent) ;;
    match error r with
    | Some error =>
        console level_error
          [Str "❌ Erreur RPC confirm_donation_payment:"; ErrorObject error] ;;;
        throw error
    | None =>
        if data_success (data r) then
          console level_log
            [Str ("✅ Don confirmé : " ++ show_id (data_entity_id (data r)))]
        else ret tt
    end
  else
    console level_warn [Str ("⚠️ Type inconnu dans metadata: " ++ show type)].

Definition handlePaymentFailed (sessionId : string) : M unit :=
  console level_log [Str ("❌ Paiement échoué - session: " ++ sessionId)] ;;;
  r <- supabase E (Rpc "mark_payment_failed" sessionId None) ;;
  match error r with
  | Some error =>
      console level_error [Str "❌ Erreur RPC mark_payment_failed:"; ErrorObject error] ;;;
      throw error
  | None =>
      console level_log
        [Str ("✅ Statut mis à jour : failed pour session " ++ sessionId)]
  end.

Definition set_refunded (updated_at : string) : patch :=
  {| set_payment_status := Some refunded;
     set_stripe_checkout_session_id := None;
     set_updated_at := Some updated_at |}.

Definition handleRefund (charge : stripe_object) : M unit :=
  (* Retrouver la commande via le payment_intent *)
  match so_payment_intent charge with
  | Some (String _ _ as paymentIntentId) =>
      r <- supabase E (UpdateOrders (EqPaymentIntent paymentIntentId)
                         (set_refunded (Date_toISOString E))) ;;
      match error r with
      | Some error =>
          console level_error
            [Str "❌ Erreur mise à jour remboursement:"; ErrorObject error]
      | None =>
          console level_log
            [Str ("✅ Remboursement enregistré pour payment_intent: " ++ paymentIntentId)]
      end
  | _ => ret tt
  end.

(** The [switch] on [stripeEvent.type]. *)
Definition route (stripeEvent : stripe_event) : M unit :=
  let type := ev_type stripeEvent in
  if String.eqb type "checkout.session.completed" then
    handlePaymentConfirmed (ev_object stripeEvent)
  else if String.eqb type "checkout.session.expired" then
    handlePaymentFailed (so_id (ev_object stripeEvent))
  else if String.eqb type "payment_intent.payment_failed" then
    match so_metadata (ev_object stripeEvent) ?. md_session_id with
    | Some (String _ _ as sessionId) => handlePaymentFailed sessionId
    | _ => ret tt
    end
  else if String.eqb type "charge.refunded" then
    handleRefund (ev_object stripeEvent)
  else
    console level_log [Str ("Événement ignoré : " ++ type)].

(** [exports.handler] *)
Definition handler (event : http_event) : M http_response :=
  (* 1. POST uniquement *)
  if negb (String.eqb (httpMethod event) "POST") then
    ret (plain 405 (Text "Method not allowed"))
  else
    (* 2. Vérification de la signature Stripe *)
    let sig := header "stripe-signature" (headers event) in
    match stripe_constructEvent E (body event) sig (STRIPE_WEBHOOK_SECRET E) with
    | inl err =>
        console level_error [Str "❌ Signature Stripe invalide:"; Str err] ;;;
        ret (plain 400 (Text ("Webhook signature invalide : " ++ err)))
    | inr stripeEvent =>
        console level_log [Str ("✅ Événement Stripe reçu : " ++ ev_type stripeEvent)] ;;;
        (* 3. Router selon le type d'événement *)
        routed <- attempt (route stripeEvent) ;;
        match routed with
        | inl err =>
            console level_error [Str "❌ Erreur traitement webhook:"; ErrorObject err] ;;;
            ret (plain 200 (Text "Webhook reçu avec erreur interne"))
        | inr _ =>
            (* 4. Toujours répondre 200 à Stripe *)
            ret (plain 200 (Json JReceived))
        end
    end.

End Functions.

End StripeWebhook.

(** ** The vocabulary of the properties *)

Definition sum_Z (l : list Z) : Z := fold_right Z.add 0%Z l.

(** The product the datastore holds for an id. *)
Definition lookup_product (db : database) (id : string) : option product :=
  find (fun p => String.eqb (p_id p) id) (db_products db).

(** A cart line is valid: its product exists, is active, has enough stock,
    and the quantity is positive, as the function tests it: the stock is not
    less than the quantity and the quantity is not at most zero.  For a
    quantity that is a number this is [0 < qty <= stock]. *)
Definition line_ok (db : database) (l : cart_item) : bool :=
  match lookup_product db (productId l) with
  | None => false
  | Some p =>
      p_active p && negb (js_lt (Num (p_stock_qty p)) (ToNumber (qty l)))
      && negb (js_le (ToNumber (qty l)) (Num 0))
  end.

(** The price the datastore holds for a cart line. *)
Definition server_price (db : database) (l : cart_item) : Z :=
  match lookup_product db (productId l) with
  | Some p => p_unit_price_cents p
  | None => 0%Z
  end.

(** The exact total of a cart of integer quantities. *)
Definition cart_total (db : database) (cart : list cart_item) : Z :=
  sum_Z (map (fun l => (server_price db l * integer (qty l))%Z) cart).

(** The quantities of the cart are integers and its line totals add up to a
    safe integer: no product and no partial sum of the function is rounded. *)
Definition safe_cart (db : database) (cart : list cart_item) : bool :=
  forallb (fun l => is_integer (qty l)) cart
  && (sum_Z (map (fun l => Z.abs (server_price db l * integer (qty l))) cart)
      <=? MAX_SAFE_INTEGER)%Z.

(** The same of the rows of an order. *)
Definition line_total (it : order_item) : Z :=
  (it_unit_price_cents_snapshot it * integer (it_qty it))%Z.

Definition safe_rows (rows : list order_item) : bool :=
  forallb (fun it => is_integer (it_qty it)) rows
  && (sum_Z (map (fun it => Z.abs (line_total it)) rows) <=? MAX_SAFE_INTEGER)%Z.

(** What the function computes for a line it accepts, whatever the quantity
    of the line is: the quantity is not at most zero, and the line total is
    the product of the price snapshot and the quantity. *)
Definition computed (it : order_item) : Prop :=
  it_line_total_cents it
    = js_mul (Num (it_unit_price_cents_snapshot it)) (ToNumber (it_qty it)) /\
  js_le (ToNumber (it_qty it)) (Num 0) = false.

(** [total += x] over a list, from zero. *)
Definition js_sum (l : list number) : number := fold_left js_add l (Num 0).

(** [it] is the snapshot of the cart line [l], of integer quantity, for the
    order [order_id]. *)
Definition snapshot_of (db : database) (order_id : nat) (l : cart_item) (it : order_item)
    : Prop :=
  exists p,
    lookup_product db (productId l) = Some p /\
    it_product_id it = p_id p /\
    it_product_name_snapshot it = p_name p /\
    it_unit_price_cents_snapshot it = p_unit_price_cents p /\
    it_qty it = qty l /\
    it_line_total_cents it = Num (line_total it) /\
    it_order_id it = Some order_id.

(** Steps 1 and 2 of the validation: the required fields are present. *)
Definition fields_present (customer : option customer_info)
    (delivery : option delivery_info) : bool :=
  truthy (customer ?. firstName) && truthy (customer ?. lastName)
  && truthy (customer ?. address) && truthy (customer ?. churchName)
  && truthy (customer ?. sectionName) && truthy (delivery ?. delivery_address)
  && truthy (delivery ?. dateId).

(** Step 4: the datastore answers with the one delivery date of that id, and
    it is active. *)
Definition date_available (E : env) (db : database) (delivery : option delivery_info)
    : bool :=
  match db_rejects E (SelectDeliveryDate (delivery ?. dateId)) with
  | Some _ => false
  | None =>
      match filter (fun d => opt_string_eqb (delivery ?. dateId) (dd_id d))
                   (db_delivery_dates db) with
      | [d] => dd_active d
      | _ => false
      end
  end.

(** The request passes steps 1 to 4 and the datastore returns the products:
    the function reaches the validation of the cart lines. *)
Definition reaches_products (E : env) (db : database) (cart : list cart_item)
    (customer : option customer_info) (delivery : option delivery_info) : Prop :=
  fields_present customer delivery = true /\
  cart <> [] /\
  date_available E db delivery = true /\
  db_rejects E (SelectProductsIn (map productId cart)) = None.

(** A request that writes to the datastore. *)
Definition is_write (c : call) : bool :=
  match c with
  | Datastore (InsertOrder _) _ | Datastore (InsertOrderItems _) _
  | Datastore (InsertDonation _) _ | Datastore (DeleteOrders _) _
  | Datastore (DeleteDonations _) _ | Datastore (UpdateOrders _ _) _
  | Datastore (UpdateDonations _ _) _ | Datastore (Rpc _ _ _) _ => true
  | _ => false
  end.

(** A request that deletes rows of [orders]. *)
Definition is_order_delete (c : call) : bool :=
  match c with
  | Datastore (DeleteOrders _) _ => true
  | _ => false
  end.

(** The world in which the webhook routes a verified event: the event has
    been logged. *)
Definition received (stripeEvent : stripe_event) (db : database) : world :=
  {| w_db := db;
     w_calls := [];
     w_console := [{| level := level_log;
                      args := [Str ("✅ Événement Stripe reçu : " ++ ev_type stripeEvent)] |}] |}.

(** The request by which the webhook confirms the order of a session. *)
Definition confirm_request (session : stripe_object) : request :=
  Rpc "confirm_order_payment" (so_id session) (so_payment_intent session).

(** The update by which the webhook records a refund. *)
Definition refund_request (E : env) (paymentIntentId : string) : request :=
  UpdateOrders (EqPaymentIntent paymentIntentId)
    (StripeWebhook.set_refunded (Date_toISOString E)).

(** The four ways a cart line fails, in the order the function checks them. *)
Inductive failure := NotFound | Inactive | InsufficientStock | InvalidQty.

Definition line_fails (db : database) (l : cart_item) (k : failure) : Prop :=
  match k with
  | NotFound => lookup_product db (productId l) = None
  | Inactive => exists p, lookup_product db (productId l) = Some p /\ p_active p = false
  | InsufficientStock =>
      exists p, lookup_product db (productId l) = Some p /\
                js_lt (Num (p_stock_qty p)) (ToNumber (qty l)) = true
  | InvalidQty => js_le (ToNumber (qty l)) (Num 0) = true
  end.

(** The message announces the failure [k]. *)
Definition announces (k : failure) (message : string) : Prop :=
  match k with
  | NotFound => exists id, message = "Produit introuvable : " ++ id
  | Inactive => exists name, message = "Produit non disponible : " ++ name
  | InsufficientStock => exists rest, message = "Stock insuffisant pour " ++ rest
  | InvalidQty => exists name, message = "Quantité invalide pour : " ++ name
  end.

(** A donation passes the validation: both names are present, and the
    amount is truthy and not less than 100. *)
Definition donation_ok (donation : donation_info) : bool :=
  truthy (don_firstName donation) && truthy (don_lastName donation)
  && ToBoolean (amountCents donation)
  && negb (js_lt (ToNumber (amountCents donation)) (Num 100)).

(** What Stripe is asked to charge for a list of line items of integer
    amounts and quantities. *)
Definition line_items_total (items : list stripe_line_item) : Z :=
  sum_Z (map (fun li => (integer (li_unit_amount li) * integer (li_quantity li))%Z) items).

(** A call to Stripe. *)
Definition is_stripe_call (c : call) : bool :=
  match c with
  | Stripe _ _ => true
  | _ => false
  end.

(** A request on the tables [orders] and [order_items]. *)
Definition on_orders (c : call) : bool :=
  match c with
  | Datastore (InsertOrder _) _ | Datastore (InsertOrderItems _) _
  | Datastore (DeleteOrders _) _ | Datastore (UpdateOrders _ _) _ => true
  | _ => false
  end.

(** The headers of every answer of the checkout function. *)
Definition json_cors_headers : list (string * string) :=
  [("Content-Type", "application/json"); ("Access-Control-Allow-Origin", "*")].

(** The requests the webhook sends: one of the three procedures, or the
    update that marks the orders of a payment intent as refunded. *)
Definition webhook_call (c : call) : bool :=
  match c with
  | Datastore (Rpc name _ _) _ =>
      String.eqb name "confirm_order_payment"
      || String.eqb name "confirm_donation_payment"
      || String.eqb name "mark_payment_failed"
  | Datastore (UpdateOrders (EqPaymentIntent _) p) _ =>
      match set_payment_status p with
      | Some refunded => true
      | _ => false
      end
  | _ => false
  end.

(** The event types the webhook acts on. *)
Definition routed_type (type : string) : bool :=
  String.eqb type "checkout.session.completed"
  || String.eqb type "checkout.session.expired"
  || String.eqb type "payment_intent.payment_failed"
  || String.eqb type "charge.refunded".

(** ** Scenarios

    Concrete datastores and environments, after the examples of spec
    section 8. *)

Module Scenario.

Definition P1 : product :=
  {| p_id := "P1"; p_name := "Riz"; p_unit_price_cents := 1500; p_stock_qty := 5;
     p_active := true; p_emoji := "R" |}.

Definition P2 : product :=
  {| p_id := "P2"; p_name := "Miel"; p_unit_price_cents := 800; p_stock_qty := 10;
     p_active := true; p_emoji := "M" |}.

Definition P3 : product :=
  {| p_id := "P3"; p_name := "Vanille"; p_unit_price_cents := 2000; p_stock_qty := 4;
     p_active := false; p_emoji := "V" |}.

Definition D1 : delivery_date :=
  {| dd_id := "D1"; dd_delivery_date := "2026-12-06"; dd_label := "Dimanche";
     dd_active := true |}.

Definition shop : database :=
  {| db_products := [P1; P2; P3];
     db_delivery_dates := [D1];
     db_orders := [];
     db_order_items := [];
     db_donations := [];
     db_next_id := 1 |}.

Definition customer : customer_info :=
  {| firstName := Some "Soa"; lastName := Some "Rabe"; address := Some "1 rue A";
     churchName := Some "FLM"; sectionName := Some "Bordeaux";
     phone := None; email := Some "soa@example.org" |}.

Definition delivery : delivery_info :=
  {| delivery_address := Some "1 rue A"; dateId := Some "D1" |}.

Definition line (id : string) (q : Z) : cart_item :=
  {| productId := id; qty := JNumber (Num q); ci_client_price_cents := Some 1%Z |}.

Definition gift : donation_info :=
  {| don_firstName := Some "A"; don_lastName := Some "B"; don_email := None;
     don_phone := None; don_church := None; don_section := None;
     don_message := None; amountCents := JNumber (Num 2000) |}.

Definition cs_1 : stripe_session :=
  {| session_id := "cs_1"; session_url := "https://pay/cs_1" |}.

(** A notification: its body stands for the type of the event it carries,
    and its signature is accepted when the header is [good]. *)
Definition notification (type : string) : http_event :=
  {| httpMethod := "POST"; headers := [("stripe-signature", "good")]; body := type |}.

Definition forged : http_event :=
  {| httpMethod := "POST"; headers := []; body := "charge.refunded" |}.

(** The environment in which the datastore rejects the requests [rejects]
    selects, Stripe creates sessions when [stripe_up], and a signed
    notification carries the object [o]. *)
Definition environment (rejects : request -> bool) (stripe_up : bool) (o : stripe_object)
    : env :=
  {| db_rejects := fun r => if rejects r then Some "unavailable" else None;
     rpc_other := fun _ _ _ db => ({| success := true; entity_id := None |}, db);
     stripe_sessions_create :=
       fun _ => if stripe_up then inr cs_1 else inl "api_connection_error";
     stripe_constructEvent :=
       fun body sig _ =>
         if opt_string_eqb sig "good"
         then inr {| ev_type := body; ev_object := o |}
         else inl "No signatures found";
     JSON_parse := fun _ => None;
     SITE_URL := Some "https://vokatra.example";
     STRIPE_WEBHOOK_SECRET := Some "whsec";
     Date_now := 1700000000000;
     Date_toISOString := "2023-11-14T22:13:20.000Z" |}.

Definition nothing : stripe_object :=
  {| so_id := "none"; so_payment_intent := None; so_metadata := None |}.

Definition never (r : request) : bool := false.

Definition item_inserts (r : request) : bool :=
  match r with InsertOrderItems _ => true | _ => false end.

Definition item_inserts_and_deletes (r : request) : bool :=
  match r with InsertOrderItems _ | DeleteOrders _ => true | _ => false end.

Definition updates_and_deletes (r : request) : bool :=
  match r with
  | UpdateOrders _ _ | UpdateDonations _ _ | DeleteOrders _ | DeleteDonations _ => true
  | _ => false
  end.

Definition procedures (r : request) : bool :=
  match r with Rpc _ _ _ => true | _ => false end.

(** Every collaborator answers. *)
Definition calm : env := environment never true nothing.

(** The datastore rejects the insert of order items; and also the deletes. *)
Definition items_refused : env := environment item_inserts true nothing.
Definition items_and_deletes_refused : env :=
  environment item_inserts_and_deletes true nothing.

(** Stripe creates no session; and the datastore also rejects updates and
    deletes. *)
Definition stripe_down : env := environment never false nothing.
Definition stripe_down_store_refusing : env :=
  environment updates_and_deletes false nothing.

(** Stripe answers and the datastore rejects updates and deletes. *)
Definition store_refusing : env := environment updates_and_deletes true nothing.

(** The session of a paid order, as the completed-payment notification
    carries it. *)
Definition paid_session : stripe_object :=
  {| so_id := "cs_1"; so_payment_intent := Some "pi_1";
     so_metadata := Some {| md_type := Some "order"; md_session_id := None |} |}.

Definition completed : stripe_event :=
  {| ev_type := "checkout.session.completed"; ev_object := paid_session |}.

(** Signed notifications carry [paid_session]; the procedures answer, or
    answer with an error. *)
Definition confirming : env := environment never true paid_session.
Definition procedures_down : env := environment procedures true paid_session.

(** The charges whose refund is notified, of an order and of a donation. *)
Definition refunded_order_charge : stripe_object :=
  {| so_id := "ch_1"; so_payment_intent := Some "pi_1"; so_metadata := None |}.

Definition refunded_charge : stripe_object :=
  {| so_id := "ch_9"; so_payment_intent := Some "pi_9"; so_metadata := None |}.

Definition refunding : env := environment never true refunded_charge.

(** The shop after the checkout of two lines, of quantities 2 and 3. *)
Definition pending_order : order :=
  {| o_id := 1;
     o_fields :=
       {| oi_status := status_new; oi_payment_status := pending;
          oi_payment_method := "stripe";
          oi_customer_first_name := Some "Soa"; oi_customer_last_name := Some "Rabe";
          oi_customer_address := Some "1 rue A"; oi_customer_phone := None;
          oi_customer_email := None; oi_church_name := Some "FLM";
          oi_section_name := Some "Bordeaux"; oi_delivery_address := Some "1 rue A";
          oi_delivery_date_id := Some "D1"; oi_currency := "EUR";
          oi_total_amount_cents := Num 5400 |};
     o_payment_status := pending;
     o_stripe_checkout_session_id := Some "cs_1";
     o_stripe_payment_intent_id := None;
     o_updated_at := None |}.

Definition item (id name : string) (price q : Z) : order_item :=
  {| it_product_id := id; it_product_name_snapshot := name;
     it_product_emoji_snapshot := "x"; it_unit_price_cents_snapshot := price;
     it_qty := JNumber (Num q); it_line_total_cents := Num (price * q);
     it_order_id := Some 1 |}.

Definition awaiting_payment : database :=
  {| db_products := [P1; P2; P3];
     db_delivery_dates := [D1];
     db_orders := [pending_order];
     db_order_items := [item "P1" "Riz" 1500 2; item "P2" "Miel" 800 3];
     db_donations := [];
     db_next_id := 2 |}.

(** A paid donation, of payment intent [pi_9]. *)
Definition paid_donation : donation_row :=
  {| d_id := 2;
     d_fields :=
       {| di_donor_first_name := Some "A"; di_donor_last_name := Some "B";
          di_donor_email := None; di_donor_phone := None; di_church_name := None;
          di_section_name := None; di_message := None;
          di_amount_cents := JNumber (Num 2000);
          di_currency := "EUR"; di_payment_status := pending |};
     d_payment_status := paid;
     d_stripe_checkout_session_id := Some "cs_9";
     d_stripe_payment_intent_id := Some "pi_9" |}.

Definition paid_order : order :=
  {| o_id := 1;
     o_fields := o_fields pending_order;
     o_payment_status := paid;
     o_stripe_checkout_session_id := Some "cs_1";
     o_stripe_payment_intent_id := Some "pi_1";
     o_updated_at := None |}.

(** A datastore holding one paid order, of payment intent [pi_1], and one
    paid donation, of payment intent [pi_9]. *)
Definition settled : database :=
  {| db_products := [P1; P2; P3];
     db_delivery_dates := [D1];
     db_orders := [paid_order];
     db_order_items := [item "P1" "Riz" 1500 2; item "P2" "Miel" 800 3];
     db_donations := [paid_donation];
     db_next_id := 3 |}.

(** Spec section 8: two units of [P1] and three of [P2]. *)
Definition basket : list cart_item := [line "P1" 2; line "P2" 3].

Definition basket_checkout (E : env) : outcome http_response * world :=
  invoke (CreateCheckoutSession.handleOrder E (Some basket)
            (Some customer) (Some delivery)) shop.

(** A product sold by the unit, in a stock of the largest safe integer, and
    the cart of a third of more than that stock in cents. *)
Definition P4 : product :=
  {| p_id := "P4"; p_name := "Sel"; p_unit_price_cents := 3;
     p_stock_qty := 9007199254740991; p_active := true; p_emoji := "S" |}.

Definition warehouse : database :=
  {| db_products := [P4];
     db_delivery_dates := [D1];
     db_orders := [];
     db_order_items := [];
     db_donations := [];
     db_next_id := 1 |}.

Definition bulk_cart : list cart_item := [line "P4" 3002399751580331].

Definition bulk_checkout : outcome http_response * world :=
  invoke (CreateCheckoutSession.handleOrder calm (Some bulk_cart)
            (Some customer) (Some delivery)) warehouse.

(** The shop when its delivery date is closed. *)
Definition D1_closed : delivery_date :=
  {| dd_id := "D1"; dd_delivery_date := "2026-12-06"; dd_label := "Dimanche";
     dd_active := false |}.

Definition closed_shop : database :=
  {| db_products := [P1; P2; P3];
     db_delivery_dates := [D1_closed];
     db_orders := [];
     db_order_items := [];
     db_donations := [];
     db_next_id := 1 |}.

(** Two units of [P1] and a line of [P2] that carries no quantity. *)
Definition vague_line : cart_item :=
  {| productId := "P2"; qty := JUndefined; ci_client_price_cents := None |}.

Definition vague_cart : list cart_item := [line "P1" 2; vague_line].

Definition vague_checkout : outcome http_response * world :=
  invoke (CreateCheckoutSession.handleOrder calm (Some vague_cart)
            (Some customer) (Some delivery)) shop.

(** A donation whose amount is a text that is no numeral. *)
Definition odd_gift : donation_info :=
  {| don_firstName := Some "A"; don_lastName := Some "B"; don_email := None;
     don_phone := None; don_church := None; don_section := None;
     don_message := None; amountCents := JString "abc" NaN |}.

(** The same cart with a second line, beyond the stock of [P1]. *)
Definition greedy_cart : list cart_item := [line "P2" 1; line "P1" 6].

Definition greedy_checkout : outcome http_response * world :=
  invoke (CreateCheckoutSession.handleOrder calm (Some greedy_cart)
            (Some customer) (Some delivery)) shop.

(** The checkout of two units of [P1]. *)
Definition checkout (E : env) : outcome http_response * world :=
  invoke (CreateCheckoutSession.handleOrder E (Some [line "P1" 2])
            (Some customer) (Some delivery)) shop.

(** A donation of 20 euros. *)
Definition donate (E : env) : outcome http_response * world :=
  invoke (CreateCheckoutSession.handleDonation E gift) shop.

(** The environment of [calm] in which every request body parses to [b]. *)
Definition parsing (b : request_body) : env :=
  {| db_rejects := db_rejects calm;
     rpc_other := rpc_other calm;
     stripe_sessions_create := stripe_sessions_create calm;
     stripe_constructEvent := stripe_constructEvent calm;
     JSON_parse := fun _ => Some (JSON_value b);
     SITE_URL := SITE_URL calm;
     STRIPE_WEBHOOK_SECRET := STRIPE_WEBHOOK_SECRET calm;
     Date_now := Date_now calm;
     Date_toISOString := Date_toISOString calm |}.

(** The environment of [calm] in which every request body parses to [null]. *)
Definition parsing_null : env :=
  {| db_rejects := db_rejects calm;
     rpc_other := rpc_other calm;
     stripe_sessions_create := stripe_sessions_create calm;
     stripe_constructEvent := stripe_constructEvent calm;
     JSON_parse := fun _ => Some JSON_null;
     SITE_URL := SITE_URL calm;
     STRIPE_WEBHOOK_SECRET := STRIPE_WEBHOOK_SECRET calm;
     Date_now := Date_now calm;
     Date_toISOString := Date_toISOString calm |}.

Definition post (body : string) : http_event :=
  {| httpMethod := "POST"; headers := []; body := body |}.

(** A body that carries a cart and a donation. *)
Definition cart_and_gift : request_body :=
  {| rb_cart := Some [line "P1" 2];
     rb_customer := Some customer;
     rb_delivery := Some delivery;
     rb_donation := Some gift |}.

(** Spec section 8: a donation of 50 cents. *)
Definition small_gift : donation_info :=
  {| don_firstName := Some "A"; don_lastName := Some "B"; don_email := None;
     don_phone := None; don_church := None; don_section := None;
     don_message := None; amountCents := JNumber (Num 50) |}.

(** The datastore rejects the insert of orders and of donations. *)
Definition header_inserts (r : request) : bool :=
  match r with InsertOrder _ | InsertDonation _ => true | _ => false end.

Definition headers_refused : env := environment header_inserts true nothing.

(** The datastore rejects the update of orders. *)
Definition order_updates (r : request) : bool :=
  match r with UpdateOrders _ _ => true | _ => false end.

Definition refunds_refused : env := environment order_updates true refunded_order_charge.

(** Signed notifications that carry a session without metadata, the session
    of a donation, and a payment intent that knows its session. *)
Definition untyped_session : stripe_object :=
  {| so_id := "cs_7"; so_payment_intent := Some "pi_7"; so_metadata := None |}.

Definition donation_session : stripe_object :=
  {| so_id := "cs_9"; so_payment_intent := Some "pi_9";
     so_metadata := Some {| md_type := Some "donation"; md_session_id := None |} |}.

Definition failed_intent : stripe_object :=
  {| so_id := "pi_1"; so_payment_intent := None;
     so_metadata := Some {| md_type := None; md_session_id := Some "cs_1" |} |}.

(** The delivery of a notification to the webhook. *)
Definition deliver (E : env) (event : http_event) (db : database)
    : outcome http_response * world :=
  invoke (StripeWebhook.handler E event) db.

End Scenario.

(** * Running a function symbolically *)

Ltac unfold_run H :=
  unfold invoke in H;
  unfold deref, console, supabase, stripe_checkout_sessions_create, attempt,
    bind, ret, throw in H.

Ltac reduce_run H :=
  cbn beta iota zeta delta
    [fst snd w_db w_calls w_console fresh error data reply_ok reply_error
     as_date as_products as_id as_rpc negb optchain execute] in H.

(** Case analysis on every test a run, given as the hypothesis [H], meets. *)
Ltac split_run H :=
  repeat (reduce_run H;
    match type of H with
    | context [match ?x with _ => _ end] =>
        lazymatch x with
        | context [match _ with _ => _ end] => fail
        | _ => destruct x eqn:?
        end
    end).

(** The entry of an explicit journal that the hypothesis [H] speaks of. *)
Ltac find_call H :=
  cbn [w_calls app In] in H;
  repeat (destruct H as [H|H]); try discriminate H; try contradiction.

(** * Properties of create_checkout_session.js *)

Module CheckoutProperties.

Import CreateCheckoutSession.

(** ** Numbers *)

(** A safe integer is a double. *)
Lemma round_double_safe (z : Z) :
  (Z.abs z <= MAX_SAFE_INTEGER)%Z -> round_double z = Num z.
Proof.
  unfold round_double, MAX_SAFE_INTEGER. intros H.
  destruct (Z.leb_spec (Z.abs z) (2 ^ 53)) as [_|Hgt]; [reflexivity|lia].
Qed.

Lemma js_mul_safe (a b : Z) :
  (Z.abs (a * b) <= MAX_SAFE_INTEGER)%Z -> js_mul (Num a) (Num b) = Num (a * b).
Proof. intros H. apply round_double_safe. exact H. Qed.

Lemma js_add_safe (a b : Z) :
  (Z.abs a + Z.abs b <= MAX_SAFE_INTEGER)%Z -> js_add (Num a) (Num b) = Num (a + b).
Proof. intros H. apply round_double_safe. lia. Qed.

Lemma is_integer_inv (v : jsvalue) :
  is_integer v = true -> v = JNumber (Num (integer v)).
Proof. destruct v as [| | |[z| |]| |]; try discriminate. reflexivity. Qed.

Lemma sum_abs_nonneg {A : Type} (f : A -> Z) (l : list A) :
  (0 <= sum_Z (map (fun x => Z.abs (f x)) l))%Z.
Proof. unfold sum_Z. induction l as [|x l IH]; simpl; lia. Qed.

(** ** Lists and the validation loop *)

Lemma find_filter {A : Type} (f g : A -> bool) (l : list A) :
  (forall x, f x = true -> g x = true) ->
  find f (filter g l) = find f l.
Proof.
  intros Hfg. induction l as [|x l IH]; simpl; [reflexivity|].
  destruct (g x) eqn:Hg; simpl.
  - destruct (f x); [reflexivity|exact IH].
  - destruct (f x) eqn:Hf; [|exact IH].
    apply Hfg in Hf. congruence.
Qed.

Lemma existsb_eqb_In (id : string) (ids : list string) :
  In id ids -> existsb (String.eqb id) ids = true.
Proof.
  intros H. apply existsb_exists. exists id. split; [exact H|apply String.eqb_refl].
Qed.

(** The rows the datastore returns for the ids of the cart hold, for each of
    these ids, the product the datastore holds. *)
Lemma find_fetched (db : database) (ids : list string) (id : string) :
  In id ids ->
  find (fun p => String.eqb (p_id p) id)
       (filter (fun p => existsb (String.eqb (p_id p)) ids) (db_products db))
  = lookup_product db id.
Proof.
  intros Hin. unfold lookup_product. apply find_filter.
  intros p Hp. apply String.eqb_eq in Hp. subst id.
  apply existsb_eqb_In; exact Hin.
Qed.

Lemma line_ok_inv (db : database) (l : cart_item) :
  line_ok db l = true ->
  exists p, lookup_product db (productId l) = Some p /\ p_active p = true /\
            js_lt (Num (p_stock_qty p)) (ToNumber (qty l)) = false /\
            js_le (ToNumber (qty l)) (Num 0) = false.
Proof.
  unfold line_ok. destruct (lookup_product db (productId l)) as [p|]; [|discriminate].
  intros H. apply andb_prop in H as [H H3]. apply andb_prop in H as [H1 H2].
  apply negb_true_iff in H2, H3.
  exists p. repeat split; assumption.
Qed.

(** On a valid cart of integer quantities whose line totals add up to a safe
    integer, the loop computes the exact total. *)
Lemma cart_loop_valid (db : database) (ps : list product) (cart : list cart_item) :
  (forall l, In l cart ->
     find (fun p => String.eqb (p_id p) (productId l)) ps = lookup_product db (productId l)) ->
  forallb (line_ok db) cart = true ->
  forallb (fun l => is_integer (qty l)) cart = true ->
  forall acc t,
    totalCents acc = Num t ->
    (Z.abs t + sum_Z (map (fun l => Z.abs (server_price db l * integer (qty l))) cart)
     <= MAX_SAFE_INTEGER)%Z ->
    exists rows slis,
      cart_loop ps cart acc =
        inr {| orderItems := orderItems acc ++ rows;
               stripeLineItems := stripeLineItems acc ++ slis;
               totalCents := Num (t + cart_total db cart) |} /\
      forall id, Forall2 (snapshot_of db id) cart (map (with_order_id id) rows).
Proof.
  induction cart as [|l cart IH]; intros Hfind Hok Hint acc t Ht Hsafe.
  - exists [], []. simpl. rewrite !app_nil_r. unfold cart_total; simpl.
    rewrite Z.add_0_r, <- Ht. split; [destruct acc; reflexivity|constructor].
  - cbn [forallb map sum_Z fold_right] in Hok, Hint, Hsafe.
    apply andb_prop in Hok as [Hl Hok]. apply andb_prop in Hint as [Hq Hint].
    destruct (line_ok_inv db l Hl) as (p & Hp & Hact & Hstock & Hqty).
    assert (Hprice : server_price db l = p_unit_price_cents p)
      by (unfold server_price; rewrite Hp; reflexivity).
    pose proof (sum_abs_nonneg (fun l => (server_price db l * integer (qty l))%Z) cart)
      as Hrest.
    unfold sum_Z in Hrest. rewrite Hprice in Hsafe.
    cbn [cart_loop]. rewrite (Hfind l (or_introl eq_refl)), Hp, Hact. cbn [negb].
    rewrite Hstock, Hqty, Ht.
    assert (Hline : js_mul (Num (p_unit_price_cents p)) (ToNumber (qty l))
                    = Num (p_unit_price_cents p * integer (qty l))).
    { rewrite (is_integer_inv _ Hq) at 1. apply js_mul_safe. lia. }
    rewrite Hline, js_add_safe by lia.
    match goal with
    | |- context [cart_loop ps cart ?a] =>
        destruct (IH (fun l' Hl' => Hfind l' (or_intror Hl')) Hok Hint a
                    (t + p_unit_price_cents p * integer (qty l))%Z eq_refl)
          as (rows & slis & Heq & Hsnap); [unfold sum_Z; lia|]
    end.
    cbn [totalCents orderItems stripeLineItems] in Heq. rewrite Heq.
    eexists (_ :: rows), (_ :: slis). split.
    + rewrite <- !app_assoc. unfold cart_total. cbn [map sum_Z fold_right app].
      rewrite Hprice, Z.add_assoc. reflexivity.
    + intros id. cbn [map]. constructor; [|apply Hsnap].
      exists p. unfold line_total. cbn. repeat split; try reflexivity; exact Hp.
Qed.

Lemma truthy_chain {A : Type} (o : option A) (f : A -> option string) :
  truthy (o ?. f) = true -> exists a, o = Some a /\ truthy (f a) = true.
Proof. destruct o as [a|]; simpl; [eauto|discriminate]. Qed.

Lemma fields_present_inv (customer : option customer_info) (delivery : option delivery_info) :
  fields_present customer delivery = true ->
  exists c d, customer = Some c /\ delivery = Some d /\
    truthy (firstName c) = true /\ truthy (lastName c) = true /\
    truthy (address c) = true /\ truthy (churchName c) = true /\
    truthy (sectionName c) = true /\ truthy (delivery_address d) = true /\
    truthy (dateId d) = true.
Proof.
  unfold fields_present. intros H.
  repeat (apply andb_prop in H as [H ?]).
  destruct customer as [c|]; [|discriminate].
  destruct delivery as [d|]; [|discriminate].
  exists c, d. simpl in *. repeat split; assumption.
Qed.

Lemma date_available_inv (E : env) (db : database) (delivery : option delivery_info) :
  date_available E db delivery = true ->
  db_rejects E (SelectDeliveryDate (delivery ?. dateId)) = None /\
  exists d,
    filter (fun d => opt_string_eqb (delivery ?. dateId) (dd_id d)) (db_delivery_dates db) = [d]
    /\ dd_active d = true.
Proof.
  unfold date_available.
  destruct (db_rejects E _); [discriminate|].
  destruct (filter _ _) as [|d [|? ?]]; try discriminate.
  intros H. split; [reflexivity|]. exists d. split; [reflexivity|exact H].
Qed.

Lemma Forall_with_order_id (id : nat) (items : list order_item) :
  Forall (fun it => it_order_id it = Some id)
         (map (with_order_id id) items).
Proof. induction items; simpl; constructor; auto. Qed.

Lemma deleted_order_gone (id : nat) (os : list order) (o : order) :
  In o (filter (fun o => negb (order_matches (EqId id) o)) os) -> o_id o <> id.
Proof.
  intros H. apply filter_In in H as [_ H]. simpl in H.
  intros Heq. rewrite Heq, Nat.eqb_refl in H. discriminate.
Qed.

Lemma deleted_donation_gone (id : nat) (ds : list donation_row) (d : donation_row) :
  In d (filter (fun d => negb (donation_matches (EqId id) d)) ds) -> d_id d <> id.
Proof.
  intros H. apply filter_In in H as [_ H]. simpl in H.
  intros Heq. rewrite Heq, Nat.eqb_refl in H. discriminate.
Qed.

(** An update keeps every row, its id and the inserted fields. *)
Lemma updated_order_kept (f : row_filter) (p : patch) (os : list order) (o : order) :
  In o os ->
  exists o', In o' (map (fun o => if order_matches f o then patch_order p o else o) os)
             /\ o_id o' = o_id o /\ o_fields o' = o_fields o.
Proof.
  intros H. eexists. split; [apply in_map; exact H|].
  destruct (order_matches f o); split; reflexivity.
Qed.

Lemma snapshot_line_totals (db : database) (id : nat) (cart : list cart_item)
    (rows : list order_item) :
  Forall2 (snapshot_of db id) cart rows ->
  sum_Z (map line_total rows) = cart_total db cart.
Proof.
  unfold cart_total, sum_Z.
  induction 1 as [|l it cart rows Hs _ IH]; cbn [map fold_right]; [reflexivity|].
  destruct Hs as (p & Hp & _ & _ & Hprice & Hqty & _ & _).
  rewrite IH. unfold server_price, line_total. rewrite Hp, Hprice, Hqty. reflexivity.
Qed.

(** The validation loop reads a cart line through its id and quantity only. *)
Lemma cart_loop_reads_id_qty (ps : list product) (c1 c2 : list cart_item) :
  map productId c1 = map productId c2 ->
  map qty c1 = map qty c2 ->
  forall acc, cart_loop ps c1 acc = cart_loop ps c2 acc.
Proof.
  revert c2. induction c1 as [|l1 c1 IH]; intros [|l2 c2] Hid Hq acc;
    try discriminate; [reflexivity|].
  simpl in Hid, Hq. injection Hid as Hid1 Hid. injection Hq as Hq1 Hq.
  simpl. unfold msg_not_found, msg_stock. rewrite Hid1, Hq1.
  destruct (find _ ps) as [p|]; [|reflexivity].
  destruct (negb (p_active p)); [reflexivity|].
  destruct (js_lt (Num (p_stock_qty p)) (ToNumber (qty l2))); [reflexivity|].
  destruct (js_le (ToNumber (qty l2)) (Num 0)); [reflexivity|].
  apply IH; assumption.
Qed.

Lemma bind_ext {A B : Type} (m : M A) (k1 k2 : A -> M B) (w : world) :
  (forall a w', k1 a w' = k2 a w') -> bind m k1 w = bind m k2 w.
Proof. intros H. unfold bind. destruct (m w) as [[a|e] w']; [apply H|reflexivity]. Qed.

Lemma bind_ret {A B : Type} (a : A) (k : A -> M B) (w : world) :
  bind (ret a) k w = k a w.
Proof. reflexivity. Qed.

Lemma handleOrder_reads_id_qty (E : env) (c1 c2 : list cart_item)
    (customer : option customer_info) (delivery : option delivery_info) (w : world) :
  map productId c1 = map productId c2 ->
  map qty c1 = map qty c2 ->
  handleOrder E (Some c1) customer delivery w = handleOrder E (Some c2) customer delivery w.
Proof.
  intros Hid Hq. unfold handleOrder.
  repeat match goal with
         | |- (if ?b then _ else _) _ = _ => destruct b; [reflexivity|]
         end.
  destruct c1 as [|l1 c1], c2 as [|l2 c2]; try discriminate; [reflexivity|].
  apply bind_ext; intros r w1.
  destruct (error r), (as_date (data r)); try reflexivity.
  destruct (negb (dd_active d)); [reflexivity|].
  cbn [deref]. rewrite !bind_ret, Hid.
  apply bind_ext; intros r2 w2.
  destruct (error r2); [reflexivity|].
  apply bind_ext; intros ps w3.
  rewrite (cart_loop_reads_id_qty ps _ _ Hid Hq). reflexivity.
Qed.

(** ** The order total (claim C1) *)

(** C1, as amended.  For every valid cart (each line's product exists, is
    active, has enough stock, and the quantity is positive) whose quantities
    are integers and whose line totals add up to a safe integer, of a
    request that reaches the validation of the cart, [handleOrder] sends the
    insert of an order whose [total_amount_cents] is the sum, over the cart
    lines, of the datastore's unit price times the line's quantity; the
    order items it then inserts are the snapshots of the cart lines, each
    with [line_total_cents = unit_price_cents_snapshot * qty]; when the
    datastore accepts both inserts the order and its items are stored.  The
    prices come from the products of the datastore only: a cart with the
    same product ids and quantities, whatever else the client sent, gives
    the same run. *)
Theorem order_total_is_server_side_sum (E : env) (db : database) (cart : list cart_item)
    (customer : option customer_info) (delivery : option delivery_info)
    (out : outcome http_response) (w' : world) :
  reaches_products E db cart customer delivery ->
  forallb (line_ok db) cart = true ->
  safe_cart db cart = true ->
  invoke (handleOrder E (Some cart) customer delivery) db = (out, w') ->
  (exists ins oerr rest,
     w_calls w' = Datastore (SelectDeliveryDate (delivery ?. dateId)) None
                  :: Datastore (SelectProductsIn (map productId cart)) None
                  :: Datastore (InsertOrder ins) oerr :: rest /\
     oi_total_amount_cents ins = Num (cart_total db cart) /\
     (oerr = None ->
        exists rows ierr rest',
          rest = Datastore (InsertOrderItems rows) ierr :: rest' /\
          Forall2 (snapshot_of db (db_next_id db)) cart rows /\
          oi_total_amount_cents ins = Num (sum_Z (map line_total rows)) /\
          (ierr = None ->
             db_order_items (w_db w') = (db_order_items db ++ rows)%list /\
             exists o, In o (db_orders (w_db w')) /\ o_id o = db_next_id db /\
                       o_fields o = ins))) /\
  (forall cart',
     map productId cart' = map productId cart ->
     map qty cart' = map qty cart ->
     invoke (handleOrder E (Some cart') customer delivery) db = (out, w')).
Proof.
  intros (Hf & Hne & Hd & Hp) Hok Hsafe Hrun. split.
  2:{ intros cart' Hid Hq. rewrite <- Hrun. unfold invoke.
      apply handleOrder_reads_id_qty; assumption. }
  destruct (fields_present_inv _ _ Hf)
    as (c & d & -> & -> & F1 & F2 & F3 & F4 & F5 & F6 & F7).
  destruct (date_available_inv _ _ _ Hd) as (Hdr & dd & Hdd & Hact).
  apply andb_prop in Hsafe as [Hint Hsafe]. apply Z.leb_le in Hsafe.
  destruct (cart_loop_valid db
              (filter (fun p => existsb (String.eqb (p_id p)) (map productId cart))
                      (db_products db)) cart) with (acc := no_lines) (t := 0%Z)
    as (rows & slis & Hloop & Hsnap).
  { intros l Hl. apply find_fetched. apply in_map. exact Hl. }
  { exact Hok. }
  { exact Hint. }
  { reflexivity. }
  { exact Hsafe. }
  cbn [optchain Z.add] in *.
  unfold handleOrder in Hrun. unfold_run Hrun. cbn [optchain] in Hrun.
  rewrite F1, F2, F3, F4, F5, F6, F7, Hdr in Hrun.
  destruct cart as [|l0 cart0] eqn:Hcart; [congruence|]. rewrite <- Hcart in *.
  reduce_run Hrun. rewrite Hdd in Hrun. reduce_run Hrun.
  rewrite Hact, Hp in Hrun. reduce_run Hrun. rewrite Hloop in Hrun.
  split_run Hrun; injection Hrun as <- <-; cbn [w_calls app w_db].
  all: eexists _, _, _; split; [reflexivity|]; split; [reflexivity|].
  all: intros Hoerr; try discriminate Hoerr.
  all: eexists _, _, _; split; [reflexivity|]; split; [apply Hsnap|].
  all: split; [cbn [oi_total_amount_cents totalCents]; f_equal; symmetry;
               eapply snapshot_line_totals; apply Hsnap|].
  all: intros Hierr; try discriminate Hierr.
  all: cbn [db_order_items db_orders with_orders with_order_items db_next_id].
  all: split; [reflexivity|].
  all: match goal with
       | |- exists o, In o (?os ++ [?n])%list /\ _ =>
           exists n; split; [apply in_or_app; right; left; reflexivity|split; reflexivity]
       | |- exists o, In o (map _ (?os ++ [?n])%list) /\ _ =>
           destruct (updated_order_kept (EqId (db_next_id db))
                       (set_session (session_id s)) (os ++ [n]) n) as (o' & Ho' & Hid & Hfs);
           [apply in_or_app; right; left; reflexivity|];
           exists o'; split; [exact Ho'|split; [exact Hid|exact Hfs]]
       | |- exists o, In o (map _ (?os ++ [?n])%list) /\ _ =>
           destruct (updated_order_kept (EqId (db_next_id db))
                       (set_status failed) (os ++ [n]) n) as (o' & Ho' & Hid & Hfs);
           [apply in_or_app; right; left; reflexivity|];
           exists o'; split; [exact Ho'|split; [exact Hid|exact Hfs]]
       end.
Qed.

(** Spec section 8: the checkout of two units at 1500 cents and three units
    at 800 cents sends the insert of an order of 5400 cents. *)
Lemma order_total_example :
  exists ins oerr rest,
    w_calls (snd (Scenario.basket_checkout Scenario.calm)) =
      Datastore (SelectDeliveryDate (Some "D1")) None
      :: Datastore (SelectProductsIn ["P1"; "P2"]) None
      :: Datastore (InsertOrder ins) oerr :: rest /\
    oi_total_amount_cents ins = Num 5400.
Proof.
  destruct (order_total_is_server_side_sum Scenario.calm Scenario.shop
              Scenario.basket (Some Scenario.customer) (Some Scenario.delivery)
              (fst (Scenario.basket_checkout Scenario.calm))
              (snd (Scenario.basket_checkout Scenario.calm)))
    as [(ins & oerr & rest & Hcalls & Htotal & _) _].
  - repeat split; try reflexivity. discriminate.
  - reflexivity.
  - reflexivity.
  - apply surjective_pairing.
  - exists ins, oerr, rest. split; [exact Hcalls|]. rewrite Htotal. reflexivity.
Defined.

(** C1 as stated fails: the total is computed in doubles.  The cart of
    3002399751580331 units at 3 cents, within a stock of 9007199254740991,
    is valid; its total is 9007199254740993 cents, and [handleOrder] inserts
    an order of 9007199254740992 cents, whose one item has this line
    total. *)
Lemma large_total_is_rounded :
  reaches_products Scenario.calm Scenario.warehouse Scenario.bulk_cart
    (Some Scenario.customer) (Some Scenario.delivery) /\
  forallb (line_ok Scenario.warehouse) Scenario.bulk_cart = true /\
  cart_total Scenario.warehouse Scenario.bulk_cart = 9007199254740993%Z /\
  exists ins rows rest,
    w_calls (snd Scenario.bulk_checkout) =
      Datastore (SelectDeliveryDate (Some "D1")) None
      :: Datastore (SelectProductsIn ["P4"]) None
      :: Datastore (InsertOrder ins) None
      :: Datastore (InsertOrderItems rows) None :: rest /\
    oi_total_amount_cents ins = Num 9007199254740992 /\
    oi_total_amount_cents ins <> Num (cart_total Scenario.warehouse Scenario.bulk_cart) /\
    map it_unit_price_cents_snapshot rows = [3%Z] /\
    map it_qty rows = [JNumber (Num 3002399751580331)] /\
    map it_line_total_cents rows = [Num 9007199254740992].
Proof.
  split; [|split; [|split]].
  - repeat split; try reflexivity. discriminate.
  - reflexivity.
  - reflexivity.
  - eexists _, _, _. split; [reflexivity|]. split; [reflexivity|].
    split; [discriminate|]. repeat split.
Qed.

(** ** The rollback of the order header (claim C2) *)

(** C2, as amended.  If the insert of the order header succeeds and the
    insert of the order items fails, [handleOrder] sends the delete of the
    header it just created, as its last request, and answers 500; the result
    of the delete is not looked at.  No item of the order is stored; when the
    datastore accepts the delete no header of that id remains, and when it
    rejects the delete the header stays. *)
Theorem failed_items_insert_rolls_back (E : env) (cart : option (list cart_item))
    (customer : option customer_info) (delivery : option delivery_info)
    (db : database) (out : outcome http_response) (w' : world)
    (rows : list order_item) (e : string) :
  invoke (handleOrder E cart customer delivery) db = (out, w') ->
  In (Datastore (InsertOrderItems rows) (Some e)) (w_calls w') ->
  exists pre ins derr,
    out = Returned (response 500 (JError "Erreur lors de l'enregistrement des articles")) /\
    w_calls w' = (pre ++ [Datastore (InsertOrder ins) None;
                          Datastore (InsertOrderItems rows) (Some e);
                          Datastore (DeleteOrders (EqId (db_next_id db))) derr])%list /\
    Forall (fun it => it_order_id it = Some (db_next_id db)) rows /\
    db_order_items (w_db w') = db_order_items db /\
    (derr = None -> forall o, In o (db_orders (w_db w')) -> o_id o <> db_next_id db) /\
    (derr <> None ->
       db_orders (w_db w') = (db_orders db ++ [new_order (db_next_id db) ins])%list).
Proof.
  intros Hrun Hin. unfold handleOrder in Hrun. unfold_run Hrun.
  split_run Hrun; injection Hrun as <- <-; find_call Hin.
  all: injection Hin as <- <-.
  all: eexists [_; _], _, _; cbn [app w_calls w_db].
  all: repeat split; try reflexivity; try apply Forall_with_order_id.
  - intros H; discriminate H.
  - intros _ o Ho. eapply deleted_order_gone. exact Ho.
  - intros H. contradiction H. reflexivity.
Qed.

(** The checkout when the datastore rejects the insert of the items. *)
Lemma failed_items_insert_example :
  fst (Scenario.checkout Scenario.items_refused) =
    Returned (response 500 (JError "Erreur lors de l'enregistrement des articles")) /\
  db_order_items (w_db (snd (Scenario.checkout Scenario.items_refused))) = [].
Proof.
  destruct (failed_items_insert_rolls_back Scenario.items_refused
              (Some [Scenario.line "P1" 2]) (Some Scenario.customer)
              (Some Scenario.delivery) Scenario.shop
              (fst (Scenario.checkout Scenario.items_refused))
              (snd (Scenario.checkout Scenario.items_refused))
              [with_order_id 1
                 {| it_product_id := "P1"; it_product_name_snapshot := "Riz";
                    it_product_emoji_snapshot := "R";
                    it_unit_price_cents_snapshot := 1500;
                    it_qty := JNumber (Num 2);
                    it_line_total_cents := Num 3000; it_order_id := None |}]
              "unavailable")
    as (pre & ins & derr & Hout & _ & _ & Hitems & _).
  - apply surjective_pairing.
  - right. right. right. left. reflexivity.
  - split; [exact Hout|exact Hitems].
Defined.

(** C2 as stated fails: when the datastore rejects the insert of the items
    and then the delete of the header, [handleOrder] answers 500 and the
    header it created remains, without any item. *)
Lemma orphan_order_remains :
  (exists rows e,
     In (Datastore (InsertOrderItems rows) (Some e))
        (w_calls (snd (Scenario.checkout Scenario.items_and_deletes_refused)))) /\
  fst (Scenario.checkout Scenario.items_and_deletes_refused) =
    Returned (response 500 (JError "Erreur lors de l'enregistrement des articles")) /\
  (exists o,
     In o (db_orders (w_db (snd (Scenario.checkout Scenario.items_and_deletes_refused))))
     /\ o_id o = db_next_id Scenario.shop
     /\ items_of_order (o_id o)
          (w_db (snd (Scenario.checkout Scenario.items_and_deletes_refused))) = []).
Proof.
  split; [|split].
  - eexists _, _. right. right. right. left. reflexivity.
  - reflexivity.
  - eexists. split; [left; reflexivity|]. split; reflexivity.
Qed.

(** ** Rejected carts (claim C5) *)


Lemma line_not_ok (db : database) (l : cart_item) :
  line_ok db l = false ->
  lookup_product db (productId l) = None \/
  exists p, lookup_product db (productId l) = Some p /\
    (p_active p = false \/ js_lt (Num (p_stock_qty p)) (ToNumber (qty l)) = true \/
     js_le (ToNumber (qty l)) (Num 0) = true).
Proof.
  unfold line_ok. destruct (lookup_product db (productId l)) as [p|]; [|left; reflexivity].
  intros H. right. exists p. split; [reflexivity|].
  destruct (p_active p); [|left; reflexivity].
  destruct (js_lt (Num (p_stock_qty p)) (ToNumber (qty l))); [right; left; reflexivity|].
  destruct (js_le (ToNumber (qty l)) (Num 0)); [right; right; reflexivity|discriminate].
Qed.




(** ** A failed payment session (claim C7) *)

Lemma updated_last_order (f : row_filter) (p : patch) (os : list order) (n : order) :
  order_matches f n = true ->
  In (patch_order p n)
     (map (fun o => if order_matches f o then patch_order p o else o) (os ++ [n])).
Proof.
  intros H. rewrite map_app. apply in_or_app. right. simpl. rewrite H. left. reflexivity.
Qed.

Lemma updated_last_donation (f : row_filter) (p : patch) (ds : list donation_row)
    (n : donation_row) :
  donation_matches f n = true ->
  In (patch_donation p n)
     (map (fun d => if donation_matches f d then patch_donation p d else d) (ds ++ [n])).
Proof.
  intros H. rewrite map_app. apply in_or_app. right. simpl. rewrite H. left. reflexivity.
Qed.

(** C7, as amended.  When the creation of the Stripe session fails, the two
    paths compensate differently, each by one request whose result is not
    looked at, before answering 500.  [handleOrder] never deletes the order:
    it sends the update of its [payment_status] to [failed]; the order is
    kept, [failed] when the datastore accepts the update and still [pending]
    when it rejects it.  [handleDonation] sends the delete of the donation;
    no donation of that id remains when the datastore accepts the delete,
    and the donation stays when it rejects it. *)
Theorem stripe_failure_compensation (E : env) (db : database) (p : session_params)
    (e : string) (out : outcome http_response) (w' : world) :
  In (Stripe p (Some e)) (w_calls w') ->
  (forall cart customer delivery,
     invoke (handleOrder E cart customer delivery) db = (out, w') ->
     exists pre uerr o,
       out = Returned (response 500
                         (JError "Erreur lors de la création du paiement Stripe")) /\
       sp_metadata p = MetaOrder (db_next_id db) /\
       w_calls w' = (pre ++ [Stripe p (Some e);
                             Datastore (UpdateOrders (EqId (db_next_id db))
                                          (set_status failed)) uerr])%list /\
       Forall (fun c => is_order_delete c = false) (w_calls w') /\
       In o (db_orders (w_db w')) /\ o_id o = db_next_id db /\
       (uerr = None -> o_payment_status o = failed) /\
       (uerr <> None -> o_payment_status o = pending)) /\
  (forall donation,
     invoke (handleDonation E donation) db = (out, w') ->
     exists ins derr,
       out = Returned (response 500 (JError "Erreur Stripe")) /\
       sp_metadata p = MetaDonation (db_next_id db) /\
       w_calls w' = [Datastore (InsertDonation ins) None; Stripe p (Some e);
                     Datastore (DeleteDonations (EqId (db_next_id db))) derr] /\
       (derr = None ->
          forall d, In d (db_donations (w_db w')) -> d_id d <> db_next_id db) /\
       (derr <> None ->
          db_donations (w_db w') =
            (db_donations db ++ [new_donation (db_next_id db) ins])%list)).
Proof.
  intros Hin. split.
  - intros cart customer delivery Hrun. unfold handleOrder in Hrun. unfold_run Hrun.
    split_run Hrun; injection Hrun as <- <-; find_call Hin.
    all: injection Hin as <- <-.
    all: cbn [app w_calls w_db db_orders with_orders with_order_items].
    + eexists [_; _; _; _], _, _. repeat split; try reflexivity.
      * repeat constructor.
      * apply in_or_app. right. left. reflexivity.
      * reflexivity.
      * intros H; discriminate H.
      * intros _. reflexivity.
    + eexists [_; _; _; _], _, _. repeat split; try reflexivity.
      * repeat constructor.
      * apply (updated_last_order (EqId (db_next_id db)) (set_status failed)).
        cbn. apply Nat.eqb_refl.
      * reflexivity.
      * intros _. reflexivity.
      * intros H. contradiction H. reflexivity.
  - intros donation Hrun. unfold handleDonation in Hrun. unfold_run Hrun.
    split_run Hrun; injection Hrun as <- <-; find_call Hin.
    all: injection Hin as <- <-.
    all: cbn [app w_calls w_db db_donations with_donations].
    all: eexists _, _; repeat split; try reflexivity.
    + intros H; discriminate H.
    + intros _ d Hd. eapply deleted_donation_gone. exact Hd.
    + intros H. contradiction H. reflexivity.
Qed.

(** The checkout and the donation when Stripe creates no session. *)
Lemma stripe_failure_example :
  (fst (Scenario.checkout Scenario.stripe_down) =
     Returned (response 500 (JError "Erreur lors de la création du paiement Stripe")) /\
   exists o, In o (db_orders (w_db (snd (Scenario.checkout Scenario.stripe_down))))
             /\ o_id o = 1) /\
  fst (Scenario.donate Scenario.stripe_down) =
    Returned (response 500 (JError "Erreur Stripe")).
Proof.
  split.
  - edestruct (stripe_failure_compensation Scenario.stripe_down Scenario.shop)
      with (out := fst (Scenario.checkout Scenario.stripe_down))
           (w' := snd (Scenario.checkout Scenario.stripe_down))
      as [Horder _].
    { do 4 right. left. reflexivity. }
    destruct (Horder (Some [Scenario.line "P1" 2]) (Some Scenario.customer)
                (Some Scenario.delivery))
      as (pre & uerr & o & Hout & _ & _ & _ & Ho & Hid & _).
    { apply surjective_pairing. }
    split; [exact Hout|]. exists o. split; [exact Ho|exact Hid].
  - edestruct (stripe_failure_compensation Scenario.stripe_down Scenario.shop)
      with (out := fst (Scenario.donate Scenario.stripe_down))
           (w' := snd (Scenario.donate Scenario.stripe_down))
      as [_ Hdonation].
    { right. left. reflexivity. }
    destruct (Hdonation Scenario.gift) as (ins & derr & Hout & _).
    { apply surjective_pairing. }
    exact Hout.
Defined.

(** C7 as stated fails: when the datastore rejects the compensating request,
    the order whose session could not be created is still [pending] after
    the 500, and the donation is still stored. *)
Lemma compensation_can_be_lost :
  (exists p e,
     In (Stripe p (Some e))
        (w_calls (snd (Scenario.checkout Scenario.stripe_down_store_refusing)))) /\
  fst (Scenario.checkout Scenario.stripe_down_store_refusing) =
    Returned (response 500 (JError "Erreur lors de la création du paiement Stripe")) /\
  (exists o,
     db_orders (w_db (snd (Scenario.checkout Scenario.stripe_down_store_refusing))) = [o]
     /\ o_payment_status o = pending) /\
  (exists p e,
     In (Stripe p (Some e))
        (w_calls (snd (Scenario.donate Scenario.stripe_down_store_refusing)))) /\
  fst (Scenario.donate Scenario.stripe_down_store_refusing) =
    Returned (response 500 (JError "Erreur Stripe")) /\
  (exists d,
     db_donations (w_db (snd (Scenario.donate Scenario.stripe_down_store_refusing))) = [d]
     /\ d_id d = 1).
Proof.
  repeat split.
  - eexists _, _. do 4 right. left. reflexivity.
  - eexists. split; reflexivity.
  - eexists _, _. right. left. reflexivity.
  - eexists. split; reflexivity.
Qed.

(** ** Storing the session id (claim C10) *)

(** C10. After Stripe has created the session, the update that stores the
    session id on the order, or on the donation, is the last request and its
    result is not looked at: [handleOrder] and [handleDonation] answer 200
    with the url of the session and the id of the record whatever the
    datastore answers.  When the datastore rejects the update the record is
    left without a session id; when it accepts it the record holds the id. *)
Theorem session_update_is_unchecked (E : env) (db : database) (p : session_params)
    (out : outcome http_response) (w' : world) :
  In (Stripe p None) (w_calls w') ->
  (forall cart customer delivery,
     invoke (handleOrder E cart customer delivery) db = (out, w') ->
     exists pre session uerr o,
       stripe_sessions_create E p = inr session /\
       out = Returned (response 200
                         (JOrderCheckout (session_url session) (db_next_id db))) /\
       w_calls w' = (pre ++ [Stripe p None;
                             Datastore (UpdateOrders (EqId (db_next_id db))
                                          (set_session (session_id session))) uerr])%list /\
       In o (db_orders (w_db w')) /\ o_id o = db_next_id db /\
       (uerr <> None -> o_stripe_checkout_session_id o = None) /\
       (uerr = None -> o_stripe_checkout_session_id o = Some (session_id session))) /\
  (forall donation,
     invoke (handleDonation E donation) db = (out, w') ->
     exists ins session uerr d,
       stripe_sessions_create E p = inr session /\
       out = Returned (response 200
                         (JDonationCheckout (session_url session) (db_next_id db))) /\
       w_calls w' = [Datastore (InsertDonation ins) None; Stripe p None;
                     Datastore (UpdateDonations (EqId (db_next_id db))
                                  (set_session (session_id session))) uerr] /\
       In d (db_donations (w_db w')) /\ d_id d = db_next_id db /\
       (uerr <> None -> d_stripe_checkout_session_id d = None) /\
       (uerr = None -> d_stripe_checkout_session_id d = Some (session_id session))).
Proof.
  intros Hin. split.
  - intros cart customer delivery Hrun. unfold handleOrder in Hrun. unfold_run Hrun.
    split_run Hrun; injection Hrun as <- <-; find_call Hin.
    all: injection Hin as <-.
    all: cbn [app w_calls w_db db_orders with_orders with_order_items].
    + eexists [_; _; _; _], _, _, _. repeat split; try eassumption; try reflexivity.
      * apply in_or_app. right. left. reflexivity.
      * reflexivity.
      * intros _. reflexivity.
      * intros H; discriminate H.
    + eexists [_; _; _; _], _, _, _. repeat split; try eassumption; try reflexivity.
      * apply (updated_last_order (EqId (db_next_id db)) (set_session (session_id s))).
        cbn. apply Nat.eqb_refl.
      * reflexivity.
      * intros H. contradiction H. reflexivity.
      * intros _. reflexivity.
  - intros donation Hrun. unfold handleDonation in Hrun. unfold_run Hrun.
    split_run Hrun; injection Hrun as <- <-; find_call Hin.
    all: injection Hin as <-.
    all: cbn [app w_calls w_db db_donations with_donations].
    + eexists _, _, _, _. repeat split; try eassumption; try reflexivity.
      * apply in_or_app. right. left. reflexivity.
      * reflexivity.
      * intros _. reflexivity.
      * intros H; discriminate H.
    + eexists _, _, _, _. repeat split; try eassumption; try reflexivity.
      * apply (updated_last_donation (EqId (db_next_id db))
                 (set_session (session_id s))).
        cbn. apply Nat.eqb_refl.
      * reflexivity.
      * intros H. contradiction H. reflexivity.
      * intros _. reflexivity.
Qed.

(** The checkout and the donation when the datastore rejects the update
    that stores the session id. *)
Lemma session_update_example :
  fst (Scenario.checkout Scenario.store_refusing) =
    Returned (response 200 (JOrderCheckout "https://pay/cs_1" 1)) /\
  fst (Scenario.donate Scenario.store_refusing) =
    Returned (response 200 (JDonationCheckout "https://pay/cs_1" 1)) /\
  (exists o, db_orders (w_db (snd (Scenario.checkout Scenario.store_refusing))) = [o] /\
             o_stripe_checkout_session_id o = None).
Proof.
  split; [|split].
  - edestruct (session_update_is_unchecked Scenario.store_refusing Scenario.shop)
      with (out := fst (Scenario.checkout Scenario.store_refusing))
           (w' := snd (Scenario.checkout Scenario.store_refusing))
      as [Horder _].
    { do 4 right. left. reflexivity. }
    destruct (Horder (Some [Scenario.line "P1" 2]) (Some Scenario.customer)
                (Some Scenario.delivery))
      as (pre & session & uerr & o & Hs & Hout & _).
    { apply surjective_pairing. }
    rewrite Hout. injection Hs as <-. reflexivity.
  - edestruct (session_update_is_unchecked Scenario.store_refusing Scenario.shop)
      with (out := fst (Scenario.donate Scenario.store_refusing))
           (w' := snd (Scenario.donate Scenario.store_refusing))
      as [_ Hdonation].
    { right. left. reflexivity. }
    destruct (Hdonation Scenario.gift) as (ins & session & uerr & d & Hs & Hout & _).
    { apply surjective_pairing. }
    rewrite Hout. injection Hs as <-. reflexivity.
  - eexists. split; reflexivity.
Defined.

(** ** Stock is checked line by line (claim C9) *)


End CheckoutProperties.

(** * Properties of stripe_webhook.js *)

Module WebhookProperties.

Import StripeWebhook.

(** ** Notifications that fail verification (claim C4) *)

(** Any method but POST is refused before the signature is looked at. *)
Lemma other_methods_are_refused (E : env) (event : http_event) (db : database) :
  httpMethod event <> "POST" ->
  invoke (handler E event) db = (Returned (plain 405 (Text "Method not allowed")), fresh db).
Proof.
  intros H. unfold invoke, handler.
  destruct (String.eqb_spec (httpMethod event) "POST") as [Heq|_]; [contradiction|].
  reflexivity.
Qed.

(** C4. For every notification whose signature verification fails, be the
    signature invalid or missing, the handler answers 400, logs the failure,
    and sends no request to the datastore: no record changes. *)
Theorem unverified_notification_is_rejected (E : env) (event : http_event)
    (db : database) (err : string) :
  httpMethod event = "POST" ->
  stripe_constructEvent E (body event) (header "stripe-signature" (headers event))
    (STRIPE_WEBHOOK_SECRET E) = inl err ->
  exists w',
    invoke (handler E event) db =
      (Returned (plain 400 (Text ("Webhook signature invalide : " ++ err))), w') /\
    w_calls w' = [] /\
    w_db w' = db /\
    w_console w' = [{| level := level_error;
                       args := [Str "❌ Signature Stripe invalide:"; Str err] |}].
Proof.
  intros Hpost Hsig. unfold invoke, handler.
  rewrite Hpost, Hsig, String.eqb_refl.
  eexists. split; [reflexivity|]. repeat split.
Qed.

(** A notification without signature header. *)
Lemma unverified_notification_example :
  exists w',
    Scenario.deliver Scenario.calm Scenario.forged Scenario.settled =
      (Returned (plain 400 (Text "Webhook signature invalide : No signatures found")), w')
    /\ w_calls w' = [] /\ w_db w' = Scenario.settled.
Proof.
  destruct (unverified_notification_is_rejected Scenario.calm Scenario.forged
              Scenario.settled "No signatures found" eq_refl eq_refl)
    as (w' & Hrun & Hcalls & Hdb & _).
  exists w'. repeat split; assumption.
Defined.

(** ** Verified notifications are acknowledged (claim C6) *)

(** C6. For every notification that passes the signature verification the
    handler answers 200: with [{received: true}] when the processing of the
    event returns, and, when the processing throws, with the acknowledgement
    of an internal error after logging the error. *)
Theorem verified_notification_is_acknowledged (E : env) (event : http_event)
    (db : database) (stripeEvent : stripe_event) :
  httpMethod event = "POST" ->
  stripe_constructEvent E (body event) (header "stripe-signature" (headers event))
    (STRIPE_WEBHOOK_SECRET E) = inr stripeEvent ->
  exists resp w',
    invoke (handler E event) db = (Returned resp, w') /\
    statusCode resp = 200%Z /\
    (forall u w2,
       route E stripeEvent (received stripeEvent db) = (Returned u, w2) ->
       resp = plain 200 (Json JReceived) /\ w' = w2) /\
    (forall err w2,
       route E stripeEvent (received stripeEvent db) = (Thrown err, w2) ->
       resp = plain 200 (Text "Webhook reçu avec erreur interne") /\
       w_db w' = w_db w2 /\ w_calls w' = w_calls w2 /\
       w_console w' =
         (w_console w2 ++
          [{| level := level_error;
              args := [Str "❌ Erreur traitement webhook:"; ErrorObject err] |}])%list).
Proof.
  intros Hpost Hsig. unfold invoke, handler.
  rewrite Hpost, Hsig, String.eqb_refl. cbn [negb].
  unfold bind, attempt, console, ret. cbn [fresh w_db w_calls w_console app].
  fold (received stripeEvent db).
  destruct (route E stripeEvent (received stripeEvent db)) as [[u|err] w2] eqn:Hroute.
  - eexists _, _. split; [reflexivity|]. split; [reflexivity|]. split.
    + intros u' w2' H. injection H as _ <-. split; reflexivity.
    + intros err w2' H. discriminate H.
  - eexists _, _. split; [reflexivity|]. split; [reflexivity|]. split.
    + intros u w2' H. discriminate H.
    + intros err' w2' H. injection H as <- <-. repeat split.
Qed.

(** A verified notification whose procedure answers with an error. *)
Lemma verified_notification_example :
  fst (Scenario.deliver Scenario.procedures_down
         (Scenario.notification "checkout.session.completed") Scenario.awaiting_payment)
  = Returned (plain 200 (Text "Webhook reçu avec erreur interne")).
Proof.
  destruct (verified_notification_is_acknowledged Scenario.procedures_down
              (Scenario.notification "checkout.session.completed")
              Scenario.awaiting_payment Scenario.completed eq_refl eq_refl)
    as (resp & w' & Hrun & _ & _ & Hthrown).
  unfold Scenario.deliver. rewrite Hrun. cbn [fst]. f_equal.
  apply (Hthrown "unavailable"
           (snd (route Scenario.procedures_down Scenario.completed
                   (received Scenario.completed Scenario.awaiting_payment)))).
  reflexivity.
Defined.

(** ** Replayed confirmations (claim C3) *)

Lemma find_map_preserved {A : Type} (f : A -> bool) (g : A -> A) (l : list A) :
  (forall x, f (g x) = f x) ->
  find f (map g l) = option_map g (find f l).
Proof.
  intros H. induction l as [|x l IH]; simpl; [reflexivity|].
  rewrite H. destruct (f x); [reflexivity|exact IH].
Qed.

Lemma mark_paid_session (id : nat) (payment_intent : option string) (o : order) :
  o_stripe_checkout_session_id (mark_paid id payment_intent o)
  = o_stripe_checkout_session_id o.
Proof. unfold mark_paid. destruct (Nat.eqb (o_id o) id); reflexivity. Qed.

Lemma mark_paid_self (payment_intent : option string) (o : order) :
  o_payment_status (mark_paid (o_id o) payment_intent o) = paid.
Proof. unfold mark_paid. rewrite Nat.eqb_refl. reflexivity. Qed.

(** The idempotence guard of the procedure: a second call for the same
    session reports [success = false] and changes nothing. *)
Lemma confirm_order_payment_replay (sessionId : string) (payment_intent : option string)
    (db : database) :
  let db1 := snd (confirm_order_payment sessionId payment_intent db) in
  success (fst (confirm_order_payment sessionId payment_intent db1)) = false /\
  snd (confirm_order_payment sessionId payment_intent db1) = db1.
Proof.
  unfold confirm_order_payment.
  destruct (find _ (db_orders db)) as [o|] eqn:Hfind.
  2:{ cbn [snd]. rewrite Hfind. split; reflexivity. }
  destruct (is_pending (o_payment_status o)) eqn:Hpending.
  2:{ cbn [snd]. rewrite Hfind, Hpending. split; reflexivity. }
  destruct (forallb _ _) eqn:Hstock.
  2:{ cbn [snd]. rewrite Hfind, Hpending, Hstock. split; reflexivity. }
  cbn [snd fst db_orders with_orders].
  rewrite find_map_preserved
    by (intros x; rewrite mark_paid_session; reflexivity).
  rewrite Hfind. cbn [option_map]. rewrite mark_paid_self.
  cbn [is_pending]. split; reflexivity.
Qed.

(** The run of the handler on a verified completed-payment notification of
    an order, when the datastore answers the procedure. *)
Lemma completed_order_run (E : env) (event : http_event) (stripeEvent : stripe_event)
    (db : database) :
  httpMethod event = "POST" ->
  stripe_constructEvent E (body event) (header "stripe-signature" (headers event))
    (STRIPE_WEBHOOK_SECRET E) = inr stripeEvent ->
  ev_type stripeEvent = "checkout.session.completed" ->
  so_metadata (ev_object stripeEvent) ?. md_type = Some "order" ->
  db_rejects E (confirm_request (ev_object stripeEvent)) = None ->
  exists w1,
    invoke (handler E event) db = (Returned (plain 200 (Json JReceived)), w1) /\
    w_calls w1 = [Datastore (confirm_request (ev_object stripeEvent)) None] /\
    w_db w1 = snd (confirm_order_payment (so_id (ev_object stripeEvent))
                     (so_payment_intent (ev_object stripeEvent)) db).
Proof.
  intros Hpost Hsig Htype Hmeta Hrpc. unfold invoke, handler.
  rewrite Hpost, Hsig, String.eqb_refl. cbn [negb].
  unfold route, handlePaymentConfirmed.
  rewrite Htype, Hmeta, String.eqb_refl. cbn [opt_string_eqb]. rewrite String.eqb_refl.
  unfold confirm_request in Hrpc.
  unfold bind, attempt, console, ret, supabase.
  rewrite Hrpc. cbn [execute]. rewrite String.eqb_refl.
  destruct (confirm_order_payment _ _ _) as [r db1].
  cbn [error reply_ok data fresh w_db w_calls w_console app snd].
  destruct (negb (data_success (RpcData r))); eexists; repeat split.
Qed.

(** A confirmation that succeeds takes every item of the order off the
    stock, once. *)
Lemma confirm_success_decrements (sessionId : string) (payment_intent : option string)
    (db : database) (id : nat) :
  fst (confirm_order_payment sessionId payment_intent db)
    = {| success := true; entity_id := Some id |} ->
  db_products (snd (confirm_order_payment sessionId payment_intent db))
    = fold_left decrement_stock (items_of_order id db) (db_products db).
Proof.
  unfold confirm_order_payment.
  destruct (find _ (db_orders db)) as [o|]; [|discriminate].
  destruct (is_pending (o_payment_status o)); [|discriminate].
  destruct (forallb _ _); [|discriminate].
  cbn [fst snd]. intros H. injection H as <-. reflexivity.
Qed.

(** An error thrown while a verified event is processed is logged, and the
    handler answers 200. *)
Lemma thrown_error_is_acknowledged (E : env) (event : http_event) (db : database)
    (stripeEvent : stripe_event) (err : string) (w2 : world) :
  httpMethod event = "POST" ->
  stripe_constructEvent E (body event) (header "stripe-signature" (headers event))
    (STRIPE_WEBHOOK_SECRET E) = inr stripeEvent ->
  route E stripeEvent (received stripeEvent db) = (Thrown err, w2) ->
  invoke (handler E event) db =
    (Returned (plain 200 (Text "Webhook reçu avec erreur interne")),
     {| w_db := w_db w2;
        w_calls := w_calls w2;
        w_console :=
          w_console w2 ++
          [{| level := level_error;
              args := [Str "❌ Erreur traitement webhook:"; ErrorObject err] |}] |}).
Proof.
  intros Hpost Hsig Hroute. unfold invoke, handler.
  rewrite Hpost, Hsig, String.eqb_refl. cbn [negb].
  unfold bind, attempt, console, ret. cbn [fresh w_db w_calls w_console app].
  fold (received stripeEvent db). rewrite Hroute. reflexivity.
Qed.

(** C3. Replaying the completed-payment notification of an order decrements
    the stock once.  When the datastore answers the procedure, both
    deliveries are acknowledged with 200 and [{received: true}]; the second
    call of [confirm_order_payment] reports [success = false], which the
    handler does not treat as an error, and leaves the datastore as the
    first delivery left it: the stock is the stock after one decrement.
    When the procedure answers with an error, [handlePaymentConfirmed]
    throws it, the datastore is unchanged, and the webhook still answers
    200. *)
Theorem replayed_confirmation_is_benign (E : env) (event : http_event)
    (stripeEvent : stripe_event) (db : database) :
  httpMethod event = "POST" ->
  stripe_constructEvent E (body event) (header "stripe-signature" (headers event))
    (STRIPE_WEBHOOK_SECRET E) = inr stripeEvent ->
  ev_type stripeEvent = "checkout.session.completed" ->
  so_metadata (ev_object stripeEvent) ?. md_type = Some "order" ->
  (db_rejects E (confirm_request (ev_object stripeEvent)) = None ->
   exists w1 w2,
     invoke (handler E event) db = (Returned (plain 200 (Json JReceived)), w1) /\
     invoke (handler E event) (w_db w1) = (Returned (plain 200 (Json JReceived)), w2) /\
     w_db w1 = snd (confirm_order_payment (so_id (ev_object stripeEvent))
                      (so_payment_intent (ev_object stripeEvent)) db) /\
     success (fst (confirm_order_payment (so_id (ev_object stripeEvent))
                     (so_payment_intent (ev_object stripeEvent)) (w_db w1))) = false /\
     w_calls w2 = [Datastore (confirm_request (ev_object stripeEvent)) None] /\
     w_db w2 = w_db w1 /\
     (forall id,
        fst (confirm_order_payment (so_id (ev_object stripeEvent))
               (so_payment_intent (ev_object stripeEvent)) db)
          = {| success := true; entity_id := Some id |} ->
        db_products (w_db w2)
          = fold_left decrement_stock (items_of_order id db) (db_products db))) /\
  (forall e,
     db_rejects E (confirm_request (ev_object stripeEvent)) = Some e ->
     exists w1 w1',
       handlePaymentConfirmed E (ev_object stripeEvent) (received stripeEvent db)
         = (Thrown e, w1) /\
       w_db w1 = db /\
       invoke (handler E event) db
         = (Returned (plain 200 (Text "Webhook reçu avec erreur interne")), w1') /\
       w_db w1' = db).
Proof.
  intros Hpost Hsig Htype Hmeta. split.
  - intros Hrpc.
    destruct (completed_order_run E event stripeEvent db Hpost Hsig Htype Hmeta Hrpc)
      as (w1 & Hrun1 & Hcalls1 & Hdb1).
    destruct (completed_order_run E event stripeEvent (w_db w1) Hpost Hsig Htype Hmeta Hrpc)
      as (w2 & Hrun2 & Hcalls2 & Hdb2).
    destruct (confirm_order_payment_replay (so_id (ev_object stripeEvent))
                (so_payment_intent (ev_object stripeEvent)) db) as [Hfalse Hsame].
    cbn zeta in Hfalse, Hsame. rewrite <- Hdb1 in Hfalse, Hsame.
    exists w1, w2. repeat split; try assumption.
    + rewrite Hdb2. exact Hsame.
    + intros id Hid. rewrite Hdb2, Hsame, Hdb1.
      apply confirm_success_decrements. exact Hid.
  - intros e Hrpc.
    assert (Hthrown : exists w1,
               handlePaymentConfirmed E (ev_object stripeEvent) (received stripeEvent db)
                 = (Thrown e, w1) /\ w_db w1 = db).
    { unfold handlePaymentConfirmed. rewrite Hmeta. cbn [opt_string_eqb].
      rewrite String.eqb_refl. unfold confirm_request in Hrpc.
      unfold bind, console, supabase, throw. rewrite Hrpc.
      eexists. split; reflexivity. }
    destruct Hthrown as (w1 & Hthrown & Hw1).
    exists w1. eexists. split; [exact Hthrown|]. split; [exact Hw1|]. split.
    + apply (thrown_error_is_acknowledged E event db stripeEvent e w1 Hpost Hsig).
      unfold route. rewrite Htype, String.eqb_refl. exact Hthrown.
    + exact Hw1.
Qed.

(** Spec section 8: an order of quantities 2 and 3 on stocks 5 and 10 leaves
    3 and 7, also after the notification is delivered again. *)
Lemma replayed_confirmation_example :
  exists w1 w2,
    Scenario.deliver Scenario.confirming
      (Scenario.notification "checkout.session.completed") Scenario.awaiting_payment
      = (Returned (plain 200 (Json JReceived)), w1) /\
    Scenario.deliver Scenario.confirming
      (Scenario.notification "checkout.session.completed") (w_db w1)
      = (Returned (plain 200 (Json JReceived)), w2) /\
    map p_stock_qty (db_products (w_db w2)) = [3; 7; 4]%Z.
Proof.
  destruct (replayed_confirmation_is_benign Scenario.confirming
              (Scenario.notification "checkout.session.completed")
              Scenario.completed Scenario.awaiting_payment
              eq_refl eq_refl eq_refl eq_refl)
    as [Hreplay _].
  destruct (Hreplay eq_refl) as (w1 & w2 & H1 & H2 & _ & _ & _ & _ & Hstock).
  exists w1, w2. split; [exact H1|]. split; [exact H2|].
  rewrite (Hstock 1 eq_refl). reflexivity.
Defined.

(** ** Refunds (claim C8) *)

Lemma refund_patch_idempotent (paymentIntentId updated_at : string) (o : order) :
  let f := fun o => if order_matches (EqPaymentIntent paymentIntentId) o
                    then patch_order (set_refunded updated_at) o else o in
  f (f o) = f o.
Proof.
  destruct o as [id fields status session intent updated].
  cbn [order_matches o_stripe_payment_intent_id patch_order].
  destruct (opt_string_eqb intent paymentIntentId) eqn:Hm;
    cbn [order_matches o_stripe_payment_intent_id patch_order];
    rewrite Hm; reflexivity.
Qed.

(** C8, as amended.  For every charge-refunded notification that carries a
    payment-intent id, the reconciler sends one update, keyed by the
    payment-intent id and not by a session id, and never throws.  The update
    is on the orders only: every order of that payment intent becomes
    [refunded] when the datastore accepts it, the other orders keep their
    status, applying it a second time changes nothing more, and a rejected
    update changes nothing.  No donation is ever touched. *)
Theorem refund_marks_orders_only (E : env) (charge : stripe_object)
    (paymentIntentId : string) (db : database) :
  so_payment_intent charge = Some paymentIntentId ->
  paymentIntentId <> EmptyString ->
  (forall stripeEvent w,
     ev_type stripeEvent = "charge.refunded" ->
     route E stripeEvent w = handleRefund E (ev_object stripeEvent) w) /\
  exists err w',
    invoke (handleRefund E charge) db = (Returned tt, w') /\
    w_calls w' = [Datastore (refund_request E paymentIntentId) err] /\
    db_donations (w_db w') = db_donations db /\
    (err <> None -> w_db w' = db) /\
    (err = None ->
       db_orders (w_db w') =
         map (fun o => if opt_string_eqb (o_stripe_payment_intent_id o) paymentIntentId
                       then patch_order (set_refunded (Date_toISOString E)) o
                       else o) (db_orders db) /\
       (forall o, In o (db_orders (w_db w')) ->
          o_stripe_payment_intent_id o = Some paymentIntentId ->
          o_payment_status o = refunded) /\
       snd (execute E (refund_request E paymentIntentId) (w_db w')) = w_db w').
Proof.
  intros Hpi Hne. split.
  { intros stripeEvent w Htype. unfold route. rewrite Htype. reflexivity. }
  unfold invoke, handleRefund. rewrite Hpi.
  destruct paymentIntentId as [|a rest]; [contradiction Hne; reflexivity|].
  unfold bind, supabase, console, refund_request.
  destruct (db_rejects E _) as [e|] eqn:Hrej.
  - eexists _, _. split; [reflexivity|]. cbn [w_calls w_db fresh app].
    split; [reflexivity|]. split; [reflexivity|]. split; [reflexivity|].
    intros Herr; discriminate Herr.
  - eexists _, _. split; [reflexivity|].
    cbn [w_calls w_db fresh app execute fst snd error reply_ok db_donations db_orders
         with_orders db_next_id].
    split; [reflexivity|]. split; [reflexivity|]. split.
    { intros Herr. contradiction Herr. reflexivity. }
    intros _. split; [reflexivity|]. split.
    + intros o Ho Hint. apply in_map_iff in Ho as (o0 & <- & _).
      destruct (order_matches (EqPaymentIntent (String a rest)) o0) eqn:Hm.
      * reflexivity.
      * cbn [order_matches] in Hm. rewrite Hint in Hm. cbn [opt_string_eqb] in Hm.
        rewrite String.eqb_refl in Hm. discriminate Hm.
    + unfold with_orders. cbn [db_products db_delivery_dates db_orders db_order_items
                                db_donations db_next_id].
      rewrite map_map. f_equal. apply map_ext. intros o.
      apply (refund_patch_idempotent (String a rest) (Date_toISOString E) o).
Qed.

(** The refund of the paid order of the scenario. *)
Lemma refund_example :
  exists w',
    invoke (handleRefund Scenario.refunding Scenario.refunded_order_charge)
      Scenario.settled = (Returned tt, w') /\
    map o_payment_status (db_orders (w_db w')) = [refunded] /\
    db_donations (w_db w') = [Scenario.paid_donation].
Proof.
  destruct (refund_marks_orders_only Scenario.refunding Scenario.refunded_order_charge
              "pi_1" Scenario.settled eq_refl)
    as [_ (err & w' & Hrun & Hcalls & Hdonations & _ & Horders)].
  - discriminate.
  - exists w'. split; [exact Hrun|]. split; [|exact Hdonations].
    assert (Herr : err = None).
    { unfold invoke in Hrun.
      assert (H : w_calls w' =
                  w_calls (snd (handleRefund Scenario.refunding
                                  Scenario.refunded_order_charge
                                  (fresh Scenario.settled))))
        by (rewrite Hrun; reflexivity).
      rewrite Hcalls in H. injection H as H. exact H. }
    destruct (Horders Herr) as (-> & _). reflexivity.
Defined.

(** C8 as stated fails: the refund of a donation is not recorded.  The
    notification of a refunded charge whose payment intent is that of a paid
    donation is acknowledged, and the donation is still [paid]. *)
Lemma donation_refund_is_not_recorded :
  fst (Scenario.deliver Scenario.refunding (Scenario.notification "charge.refunded")
         Scenario.settled) = Returned (plain 200 (Json JReceived)) /\
  so_payment_intent Scenario.refunded_charge = Some "pi_9" /\
  (exists d,
     db_donations (w_db (snd (Scenario.deliver Scenario.refunding
                                (Scenario.notification "charge.refunded")
                                Scenario.settled))) = [d] /\
     d_stripe_payment_intent_id d = Some "pi_9" /\
     d_payment_status d = paid).
Proof.
  split; [reflexivity|]. split; [reflexivity|].
  eexists. split; [reflexivity|]. split; reflexivity.
Qed.

End WebhookProperties.

(** * Further properties of create_checkout_session.js *)

Module CheckoutCoverage.

Import CreateCheckoutSession.

(** ** Requests refused before any call *)

(** X1. A request whose method is not POST is answered 405, and a POST whose
    body does not parse is answered 400, with the JSON and CORS headers, and
    before anything is called or logged. *)
Theorem request_refused_before_dispatch (E : env) (event : http_event) (db : database) :
  httpMethod event <> "POST" \/ JSON_parse E (body event) = None ->
  exists resp,
    invoke (handler E event) db = (Returned resp, fresh db) /\
    resp_headers resp = json_cors_headers /\
    (httpMethod event <> "POST" ->
       resp = response 405 (JError "Method not allowed")) /\
    (httpMethod event = "POST" ->
       resp = response 400 (JError "Corps de requête invalide (JSON attendu)")).
Proof.
  intros H. unfold invoke, handler.
  destruct (String.eqb_spec (httpMethod event) "POST") as [Hpost|Hother]; cbn [negb].
  - destruct H as [H|H]; [contradiction|]. rewrite H.
    eexists. split; [reflexivity|]. split; [reflexivity|].
    split; [intros Hne; contradiction|reflexivity].
  - eexists. split; [reflexivity|]. split; [reflexivity|].
    split; [reflexivity|intros Heq; contradiction].
Qed.

(** A GET request. *)
Lemma request_refused_example :
  exists resp,
    invoke (handler Scenario.calm
              {| httpMethod := "GET"; headers := []; body := EmptyString |})
      Scenario.shop = (Returned resp, fresh Scenario.shop) /\
    statusCode resp = 405%Z.
Proof.
  destruct (request_refused_before_dispatch Scenario.calm
              {| httpMethod := "GET"; headers := []; body := EmptyString |}
              Scenario.shop) as (resp & Hrun & _ & H405 & _).
  - left. discriminate.
  - exists resp. split; [exact Hrun|]. rewrite H405; [reflexivity|discriminate].
Defined.

(** X2. An order with a required field missing or empty, or without a
    non-empty cart, is answered 400 before anything is called or logged.
    The first name is looked at first, and the cart only once the seven
    fields are present. *)
Theorem incomplete_order_is_refused (E : env) (cart : option (list cart_item))
    (customer : option customer_info) (delivery : option delivery_info)
    (db : database) :
  fields_present customer delivery = false \/ cart = None \/ cart = Some [] ->
  exists message,
    invoke (handleOrder E cart customer delivery) db
      = (Returned (response 400 (JError message)), fresh db) /\
    (truthy (customer ?. firstName) = false -> message = "Prénom obligatoire") /\
    (fields_present customer delivery = true -> message = "Panier vide").
Proof.
  intros H. unfold invoke, handleOrder, fields_present in *.
  destruct (truthy (customer ?. firstName)); cbn [negb andb] in *;
    [|eexists; split; [reflexivity|split; [reflexivity|discriminate]]].
  destruct (truthy (customer ?. lastName)); cbn [negb andb] in *;
    [|eexists; split; [reflexivity|split; discriminate]].
  destruct (truthy (customer ?. address)); cbn [negb andb] in *;
    [|eexists; split; [reflexivity|split; discriminate]].
  destruct (truthy (customer ?. churchName)); cbn [negb andb] in *;
    [|eexists; split; [reflexivity|split; discriminate]].
  destruct (truthy (customer ?. sectionName)); cbn [negb andb] in *;
    [|eexists; split; [reflexivity|split; discriminate]].
  destruct (truthy (delivery ?. delivery_address)); cbn [negb andb] in *;
    [|eexists; split; [reflexivity|split; discriminate]].
  destruct (truthy (delivery ?. dateId)); cbn [negb andb] in *;
    [|eexists; split; [reflexivity|split; discriminate]].
  destruct H as [H|[->| ->]]; [discriminate H| |];
    (eexists; split; [reflexivity|split; [discriminate|reflexivity]]).
Qed.

(** An order without customer. *)
Lemma incomplete_order_example :
  invoke (handleOrder Scenario.calm (Some [Scenario.line "P1" 2]) None
            (Some Scenario.delivery)) Scenario.shop
  = (Returned (response 400 (JError "Prénom obligatoire")), fresh Scenario.shop).
Proof.
  destruct (incomplete_order_is_refused Scenario.calm (Some [Scenario.line "P1" 2]) None
              (Some Scenario.delivery) Scenario.shop) as (message & Hrun & Hfirst & _).
  - left. reflexivity.
  - rewrite Hrun, (Hfirst eq_refl). reflexivity.
Defined.

(** X3. When the delivery date cannot be used, the order is answered 400
    after the one select of the date: no product is fetched and nothing is
    written.  The date is reported as not found when the select fails, and
    when it does not give exactly one row; it is reported as no longer
    available when the select gives one row, which is then not active. *)
Theorem unusable_date_is_refused (E : env) (line : cart_item) (cart : list cart_item)
    (customer : option customer_info) (delivery : option delivery_info)
    (db : database) :
  fields_present customer delivery = true ->
  date_available E db delivery = false ->
  exists message err w',
    invoke (handleOrder E (Some (line :: cart)) customer delivery) db
      = (Returned (response 400 (JError message)), w') /\
    w_calls w' = [Datastore (SelectDeliveryDate (delivery ?. dateId)) err] /\
    w_db w' = db /\
    (db_rejects E (SelectDeliveryDate (delivery ?. dateId)) <> None ->
       message = "Date de livraison introuvable") /\
    ((forall d, filter (fun d => opt_string_eqb (delivery ?. dateId) (dd_id d))
                       (db_delivery_dates db) <> [d]) ->
       message = "Date de livraison introuvable") /\
    (db_rejects E (SelectDeliveryDate (delivery ?. dateId)) = None ->
     forall d, filter (fun d => opt_string_eqb (delivery ?. dateId) (dd_id d))
                      (db_delivery_dates db) = [d] ->
       dd_active d = false /\
       message = "Cette date de livraison n'est plus disponible").
Proof.
  intros Hf Hd.
  destruct (CheckoutProperties.fields_present_inv _ _ Hf)
    as (c & d & -> & -> & F1 & F2 & F3 & F4 & F5 & F6 & F7).
  unfold date_available in Hd. cbn [optchain] in *.
  unfold invoke, handleOrder. cbn [optchain].
  rewrite F1, F2, F3, F4, F5, F6, F7. cbn [negb].
  unfold bind, supabase, ret.
  destruct (db_rejects E (SelectDeliveryDate (dateId d))) as [e|].
  { eexists _, _, _. split; [reflexivity|]. split; [reflexivity|].
    split; [reflexivity|]. split; [reflexivity|]. split; [reflexivity|].
    intros H; discriminate H. }
  cbn [execute fresh w_db].
  destruct (filter _ (db_delivery_dates db)) as [|dd [|dd' rest]] eqn:Hfilter.
  - eexists _, _, _. split; [reflexivity|]. split; [reflexivity|].
    split; [reflexivity|]. split; [reflexivity|]. split; [reflexivity|].
    intros _ d0 H; discriminate H.
  - cbn [error data reply_ok as_date]. rewrite Hd. cbn [negb].
    eexists _, _, _. split; [reflexivity|]. split; [reflexivity|].
    split; [reflexivity|]. split; [intros H; contradiction H; reflexivity|].
    split; [intros H; contradiction (H dd); reflexivity|].
    intros _ d0 H. injection H as <-. split; [exact Hd|reflexivity].
  - eexists _, _, _. split; [reflexivity|]. split; [reflexivity|].
    split; [reflexivity|]. split; [reflexivity|]. split; [reflexivity|].
    intros _ d0 H; discriminate H.
Qed.

(** An order for a delivery date that is closed. *)
Lemma unusable_date_example :
  exists w',
    invoke (handleOrder Scenario.calm (Some [Scenario.line "P1" 2])
              (Some Scenario.customer) (Some Scenario.delivery)) Scenario.closed_shop
    = (Returned (response 400
                   (JError "Cette date de livraison n'est plus disponible")), w') /\
    w_db w' = Scenario.closed_shop.
Proof.
  destruct (unusable_date_is_refused Scenario.calm (Scenario.line "P1" 2) []
              (Some Scenario.customer) (Some Scenario.delivery)
              Scenario.closed_shop eq_refl eq_refl)
    as (message & err & w' & Hrun & _ & Hdb & _ & _ & Hclosed).
  destruct (Hclosed eq_refl Scenario.D1_closed eq_refl) as [_ ->].
  exists w'. split; [exact Hrun|exact Hdb].
Defined.

(** X4. A donation without first or last name, without amount, or of less
    than 100 cents is answered 400 before anything is called or logged: no
    record is created.  When both names are present the message is that of
    the minimum amount. *)
Theorem small_donation_is_refused (E : env) (donation : donation_info) (db : database) :
  donation_ok donation = false ->
  exists message,
    invoke (handleDonation E donation) db
      = (Returned (response 400 (JError message)), fresh db) /\
    (truthy (don_firstName donation) = true ->
     truthy (don_lastName donation) = true ->
     message = "Montant minimum : 1 €").
Proof.
  unfold donation_ok, invoke, handleDonation. intros H.
  destruct (truthy (don_firstName donation)); cbn [negb andb] in *;
    [|eexists; split; [reflexivity|discriminate]].
  destruct (truthy (don_lastName donation)); cbn [negb andb] in *;
    [|eexists; split; [reflexivity|discriminate]].
  assert (Hlt : negb (ToBoolean (amountCents donation))
                || js_lt (ToNumber (amountCents donation)) (Num 100) = true).
  { destruct (ToBoolean (amountCents donation)); cbn [negb andb orb] in *;
      [|reflexivity].
    apply negb_false_iff in H. exact H. }
  rewrite Hlt. eexists. split; reflexivity.
Qed.

(** Spec section 8: a donation of 50 cents. *)
Lemma small_donation_example :
  invoke (handleDonation Scenario.calm Scenario.small_gift) Scenario.shop
  = (Returned (response 400 (JError "Montant minimum : 1 €")), fresh Scenario.shop).
Proof.
  destruct (small_donation_is_refused Scenario.calm Scenario.small_gift Scenario.shop
              eq_refl) as (message & Hrun & Hmsg).
  rewrite Hrun, (Hmsg eq_refl eq_refl). reflexivity.
Defined.

(** ** What every run of the checkout function keeps *)

Lemma cart_loop_rejection (ps : list product) (cart : list cart_item) (acc : lines)
    (rejected : http_response) :
  cart_loop ps cart acc = inl rejected ->
  exists message, rejected = response 400 (JError message).
Proof.
  revert acc. induction cart as [|l cart IH]; intros acc; simpl; [discriminate|].
  destruct (find _ ps) as [p|]; [|intros H; injection H as <-; eauto].
  destruct (negb (p_active p)); [intros H; injection H as <-; eauto|].
  destruct (js_lt (Num (p_stock_qty p)) (ToNumber (qty l)));
    [intros H; injection H as <-; eauto|].
  destruct (js_le (ToNumber (qty l)) (Num 0)); [intros H; injection H as <-; eauto|].
  apply IH.
Qed.

Ltac unfold_checkout H :=
  unfold handler, handleOrder, handleDonation in H; unfold_run H.

(** A test on a missing customer or delivery cannot have passed. *)
Ltac absurd_field :=
  match goal with
  | H : negb (truthy (None ?. _)) = false |- _ => discriminate H
  end.



(** X6. An answer 400 or 405 of the checkout function means that the
    datastore is as it was: no write was sent, and Stripe was not called. *)
Theorem client_error_changes_nothing (E : env) (event : http_event) (db : database)
    (resp : http_response) (w' : world) :
  invoke (handler E event) db = (Returned resp, w') ->
  (statusCode resp = 400 \/ statusCode resp = 405)%Z ->
  w_db w' = db /\
  Forall (fun c => is_write c = false) (w_calls w') /\
  Forall (fun c => is_stripe_call c = false) (w_calls w').
Proof.
  intros Hrun Hstatus. unfold_checkout Hrun.
  split_run Hrun; (first [discriminate Hrun | injection Hrun as Hout Hw]);
    try (injection Hout as Hout); subst resp w'.
  all: try match goal with
           | H : cart_loop _ _ _ = inl _ |- _ =>
               apply cart_loop_rejection in H; destruct H as (message & ->)
           end.
  all: cbn [statusCode response] in Hstatus;
    try (destruct Hstatus as [Hstatus|Hstatus]; discriminate Hstatus).
  all: cbn [w_db w_calls app]; split; [reflexivity|]; split; repeat constructor.
Qed.

(** The checkout of six units of a product whose stock is five. *)
Lemma client_error_example :
  w_db (snd Scenario.greedy_checkout) = Scenario.shop.
Proof.
  pose (E := Scenario.parsing {| rb_cart := Some Scenario.greedy_cart;
                                 rb_customer := Some Scenario.customer;
                                 rb_delivery := Some Scenario.delivery;
                                 rb_donation := None |}).
  destruct (client_error_changes_nothing E (Scenario.post "{}") Scenario.shop
              (response 400 (JError (msg_stock Scenario.P1 (Scenario.line "P1" 6))))
              (snd Scenario.greedy_checkout)) as (Hdb & _).
  - reflexivity.
  - left. reflexivity.
  - exact Hdb.
Defined.

(** X7. The checkout function only reads the catalogue: whatever the request
    and the answers of the collaborators, the products (and so the stock)
    and the delivery dates are as they were; an order leaves the donations
    as they were, and a donation leaves the orders and their items as they
    were. *)
Theorem checkout_only_reads_the_catalogue (E : env) (db : database) :
  (forall event,
     db_products (w_db (snd (invoke (handler E event) db))) = db_products db /\
     db_delivery_dates (w_db (snd (invoke (handler E event) db)))
       = db_delivery_dates db) /\
  (forall cart customer delivery,
     db_donations (w_db (snd (invoke (handleOrder E cart customer delivery) db)))
       = db_donations db) /\
  (forall donation,
     db_orders (w_db (snd (invoke (handleDonation E donation) db))) = db_orders db /\
     db_order_items (w_db (snd (invoke (handleDonation E donation) db)))
       = db_order_items db).
Proof.
  split; [|split].
  - intros event.
    destruct (invoke (handler E event) db) as [out w'] eqn:Hrun. cbn [snd].
    unfold_checkout Hrun.
    split_run Hrun; injection Hrun as <- <-; split; reflexivity.
  - intros cart customer delivery.
    destruct (invoke (handleOrder E cart customer delivery) db) as [out w'] eqn:Hrun.
    cbn [snd]. unfold_checkout Hrun.
    split_run Hrun; injection Hrun as <- <-; reflexivity.
  - intros donation.
    destruct (invoke (handleDonation E donation) db) as [out w'] eqn:Hrun.
    cbn [snd]. unfold_checkout Hrun.
    split_run Hrun; injection Hrun as <- <-; split; reflexivity.
Qed.

(** X8. A body that carries a donation is a donation, whatever cart, customer
    and delivery it carries too: the answer is that of [handleDonation], no
    request on the orders or their items is sent. *)
Theorem donation_takes_precedence (E : env) (event : http_event) (db : database)
    (parsed : request_body) (donation : donation_info) :
  httpMethod event = "POST" ->
  JSON_parse E (body event) = Some (JSON_value parsed) ->
  rb_donation parsed = Some donation ->
  invoke (handler E event) db = invoke (handleDonation E donation) db /\
  Forall (fun c => on_orders c = false) (w_calls (snd (invoke (handler E event) db))).
Proof.
  intros Hpost Hparse Hdonation.
  assert (Heq : invoke (handler E event) db = invoke (handleDonation E donation) db).
  { unfold invoke, handler. rewrite Hpost, Hparse, Hdonation, String.eqb_refl.
    reflexivity. }
  split; [exact Heq|]. rewrite Heq.
  destruct (invoke (handleDonation E donation) db) as [out w'] eqn:Hrun. cbn [snd].
  unfold_checkout Hrun.
  split_run Hrun; injection Hrun as <- <-; repeat constructor.
Qed.

(** A body that carries a cart and a donation. *)
Lemma donation_precedence_example :
  db_orders (w_db (snd (invoke (handler (Scenario.parsing Scenario.cart_and_gift)
                                  (Scenario.post "{}")) Scenario.shop))) = [] /\
  fst (invoke (handler (Scenario.parsing Scenario.cart_and_gift)
                 (Scenario.post "{}")) Scenario.shop)
  = Returned (response 200 (JDonationCheckout "https://pay/cs_1" 1)).
Proof.
  destruct (donation_takes_precedence (Scenario.parsing Scenario.cart_and_gift)
              (Scenario.post "{}") Scenario.shop Scenario.cart_and_gift Scenario.gift
              eq_refl eq_refl eq_refl) as [Heq _].
  rewrite Heq. split; reflexivity.
Defined.

(** ** What an accepted order stores and charges *)

Lemma sum_Z_app (l1 l2 : list Z) : sum_Z (l1 ++ l2) = (sum_Z l1 + sum_Z l2)%Z.
Proof. unfold sum_Z. induction l1 as [|x l1 IH]; simpl; [reflexivity|]. rewrite IH. lia. Qed.

(** What the validation loop adds to its three accumulators when it comes
    to the end of the cart. *)
Lemma cart_loop_accumulates (ps : list product) (cart : list cart_item) :
  forall acc v,
    cart_loop ps cart acc = inr v ->
    exists rows slis,
      orderItems v = (orderItems acc ++ rows)%list /\
      stripeLineItems v = (stripeLineItems acc ++ slis)%list /\
      totalCents v = fold_left js_add (map it_line_total_cents rows) (totalCents acc) /\
      map li_unit_amount slis
        = map (fun it => JNumber (Num (it_unit_price_cents_snapshot it))) rows /\
      map li_quantity slis = map it_qty rows /\
      List.length rows = List.length cart /\
      Forall computed rows.
Proof.
  induction cart as [|l cart IH]; intros acc v; cbn [cart_loop].
  - intros H. injection H as <-. exists [], []. rewrite !app_nil_r.
    repeat split; constructor.
  - destruct (find _ ps) as [p|]; [|discriminate].
    destruct (negb (p_active p)); [discriminate|].
    destruct (js_lt (Num (p_stock_qty p)) (ToNumber (qty l))); [discriminate|].
    destruct (js_le (ToNumber (qty l)) (Num 0)) eqn:Hqty; [discriminate|].
    intros H. apply IH in H as (rows & slis & Hi & Hs & Ht & Hu & Hq & Hn & Hall).
    cbn [orderItems stripeLineItems totalCents] in Hi, Hs, Ht.
    rewrite <- app_assoc in Hi, Hs.
    eexists (_ :: rows), (_ :: slis).
    split; [exact Hi|]. split; [exact Hs|].
    cbn [map fold_left it_line_total_cents li_unit_amount li_quantity it_qty
         it_unit_price_cents_snapshot List.length].
    split; [exact Ht|]. split; [rewrite Hu; reflexivity|].
    split; [rewrite Hq; reflexivity|]. split; [rewrite Hn; reflexivity|].
    constructor; [|exact Hall]. split; [reflexivity|exact Hqty].
Qed.

Lemma computed_with_order_id (id : nat) (rows : list order_item) :
  Forall computed rows ->
  Forall (fun it => it_order_id it = Some id /\ computed it) (map (with_order_id id) rows).
Proof.
  intros H. rewrite Forall_map. eapply Forall_impl; [|exact H].
  intros it [H1 H2]. split; [reflexivity|]. split; [exact H1|exact H2].
Qed.

(** The same, for the rows the function inserts and the line items it gives
    to Stripe. *)
Lemma cart_loop_result (ps : list product) (cart : list cart_item) (v : lines) (id : nat) :
  cart_loop ps cart no_lines = inr v ->
  let rows := map (with_order_id id) (orderItems v) in
  totalCents v = js_sum (map it_line_total_cents rows) /\
  map li_unit_amount (stripeLineItems v)
    = map (fun it => JNumber (Num (it_unit_price_cents_snapshot it))) rows /\
  map li_quantity (stripeLineItems v) = map it_qty rows /\
  List.length rows = List.length cart /\
  Forall (fun it => it_order_id it = Some id /\ computed it) rows.
Proof.
  intros H. apply cart_loop_accumulates in H
    as (rows & slis & Hi & Hs & Ht & Hu & Hq & Hn & Hall).
  cbn [orderItems stripeLineItems totalCents no_lines app] in Hi, Hs, Ht.
  cbn zeta. rewrite Hi, Hs, Ht, Hu, Hq, !map_map, length_map.
  cbn [with_order_id it_line_total_cents it_unit_price_cents_snapshot it_qty].
  repeat split; try assumption; try reflexivity.
  apply computed_with_order_id. exact Hall.
Qed.

Lemma js_le_zero (q : Z) : js_le (Num q) (Num 0) = false -> (0 < q)%Z.
Proof.
  unfold js_le, js_lt. intros H. apply negb_false_iff in H. apply Z.ltb_lt in H. exact H.
Qed.

(** On rows of integer quantities whose line totals add up to a safe
    integer, what the function computed is exact. *)
Lemma computed_exact (rows : list order_item) :
  Forall computed rows ->
  forallb (fun it => is_integer (it_qty it)) rows = true ->
  forall t,
    (Z.abs t + sum_Z (map (fun it => Z.abs (line_total it)) rows) <= MAX_SAFE_INTEGER)%Z ->
    fold_left js_add (map it_line_total_cents rows) (Num t)
      = Num (t + sum_Z (map line_total rows)) /\
    Forall (fun it => (0 < integer (it_qty it))%Z /\
                      it_line_total_cents it = Num (line_total it)) rows.
Proof.
  induction 1 as [|it rows [Hline Hpos] _ IH]; intros Hint t Hsafe.
  - cbn. rewrite Z.add_0_r. split; [reflexivity|constructor].
  - cbn [forallb map sum_Z fold_right] in Hint, Hsafe.
    apply andb_prop in Hint as [Hq Hint].
    pose proof (CheckoutProperties.sum_abs_nonneg line_total rows) as Hrest.
    unfold sum_Z in Hrest.
    rewrite (CheckoutProperties.is_integer_inv _ Hq) in Hline, Hpos.
    cbn [ToNumber] in Hline, Hpos. fold (line_total it) in Hline.
    rewrite CheckoutProperties.js_mul_safe in Hline by (fold (line_total it); lia).
    fold (line_total it) in Hline.
    cbn [map fold_left sum_Z fold_right]. rewrite Hline.
    rewrite CheckoutProperties.js_add_safe by lia.
    destruct (IH Hint (t + line_total it)%Z) as [Hsum Hall]; [unfold sum_Z; lia|].
    rewrite Hsum. split; [f_equal; unfold sum_Z; lia|].
    constructor; [|exact Hall]. split; [apply js_le_zero; exact Hpos|exact Hline].
Qed.

Lemma safe_rows_exact (rows : list order_item) :
  Forall computed rows ->
  safe_rows rows = true ->
  js_sum (map it_line_total_cents rows) = Num (sum_Z (map line_total rows)) /\
  Forall (fun it => (0 < integer (it_qty it))%Z /\
                    it_line_total_cents it = Num (line_total it)) rows.
Proof.
  intros Hall Hsafe. apply andb_prop in Hsafe as [Hint Hsafe]. apply Z.leb_le in Hsafe.
  destruct (computed_exact rows Hall Hint 0%Z) as [Hsum Hrows]; [exact Hsafe|].
  split; [exact Hsum|exact Hrows].
Qed.

(** What Stripe is asked to charge for the line items of these rows. *)
Lemma line_items_of_rows (slis : list stripe_line_item) (rows : list order_item) :
  map li_unit_amount slis
    = map (fun it => JNumber (Num (it_unit_price_cents_snapshot it))) rows ->
  map li_quantity slis = map it_qty rows ->
  line_items_total slis = sum_Z (map line_total rows).
Proof.
  unfold line_items_total, sum_Z. revert rows.
  induction slis as [|li slis IH]; intros [|it rows] Hu Hq; try discriminate;
    [reflexivity|].
  cbn [map] in Hu, Hq. injection Hu as Hu1 Hu. injection Hq as Hq1 Hq.
  cbn [map fold_right]. rewrite (IH rows Hu Hq), Hu1, Hq1. reflexivity.
Qed.

(** What an answer 200 of [handleOrder] means for the datastore. *)
Lemma accepted_order_inv (E : env) (cart : option (list cart_item))
    (customer : option customer_info) (delivery : option delivery_info)
    (db : database) (resp : http_response) (w' : world) :
  invoke (handleOrder E cart customer delivery) db = (Returned resp, w') ->
  statusCode resp = 200%Z ->
  exists o rows session,
    resp = response 200 (JOrderCheckout (session_url session) (db_next_id db)) /\
    In o (db_orders (w_db w')) /\
    o_id o = db_next_id db /\
    o_payment_status o = pending /\
    o_total_amount_cents o = js_sum (map it_line_total_cents rows) /\
    (forall o0, In o0 (db_orders db) ->
       exists o0', In o0' (db_orders (w_db w')) /\ o_id o0' = o_id o0 /\
                   o_fields o0' = o_fields o0) /\
    List.length (db_orders (w_db w')) = S (List.length (db_orders db)) /\
    db_order_items (w_db w') = (db_order_items db ++ rows)%list /\
    rows <> [] /\
    Forall (fun it => it_order_id it = Some (db_next_id db) /\ computed it) rows /\
    db_next_id (w_db w') = S (db_next_id db).
Proof.
  intros Hrun Hstatus. unfold_checkout Hrun.
  split_run Hrun; (first [discriminate Hrun | injection Hrun as Hout Hw]);
    try (injection Hout as Hout); subst resp w'.
  all: try match goal with
           | H : cart_loop _ _ _ = inl _ |- _ =>
               apply cart_loop_rejection in H; destruct H as (message & ->)
           end.
  all: cbn [statusCode response] in Hstatus; try discriminate Hstatus.
  all: match goal with
       | H : cart_loop _ (_ :: _) _ = inr _ |- _ =>
           destruct (cart_loop_result _ _ _ (db_next_id db) H)
             as (Htotal & _ & _ & Hlen & Hall)
       end.
  all: cbn [w_db db_orders db_order_items db_next_id with_orders with_order_items].
  - eexists _, _, _. split; [reflexivity|].
    split; [apply in_or_app; right; left; reflexivity|].
    split; [reflexivity|]. split; [reflexivity|]. split; [exact Htotal|].
    split.
    { intros o0 Ho0. exists o0. split; [apply in_or_app; left; exact Ho0|].
      split; reflexivity. }
    split; [rewrite length_app, Nat.add_comm; reflexivity|].
    split; [reflexivity|].
    split; [intros Hnil; rewrite Hnil in Hlen; discriminate Hlen|].
    split; [exact Hall|reflexivity].
  - eexists _, _, _. split; [reflexivity|].
    split.
    { apply (CheckoutProperties.updated_last_order (EqId (db_next_id db))
               (set_session (session_id s))). cbn. apply Nat.eqb_refl. }
    split; [reflexivity|]. split; [reflexivity|]. split; [exact Htotal|].
    split.
    { intros o0 Ho0.
      apply (CheckoutProperties.updated_order_kept (EqId (db_next_id db))
               (set_session (session_id s))).
      apply in_or_app. left. exact Ho0. }
    split; [rewrite length_map, length_app, Nat.add_comm; reflexivity|].
    split; [reflexivity|].
    split; [intros Hnil; rewrite Hnil in Hlen; discriminate Hlen|].
    split; [exact Hall|reflexivity].
Qed.



(** X10. The function is not idempotent: a checkout repeated with the same
    content and accepted twice stores two orders, under two consecutive ids,
    and the first one is still there. *)
Theorem repeated_checkout_duplicates (E : env) (cart : option (list cart_item))
    (customer : option customer_info) (delivery : option delivery_info)
    (db : database) (r1 r2 : http_response) (w1 w2 : world) :
  invoke (handleOrder E cart customer delivery) db = (Returned r1, w1) ->
  statusCode r1 = 200%Z ->
  invoke (handleOrder E cart customer delivery) (w_db w1) = (Returned r2, w2) ->
  statusCode r2 = 200%Z ->
  exists url1 url2 o1 o2,
    r1 = response 200 (JOrderCheckout url1 (db_next_id db)) /\
    r2 = response 200 (JOrderCheckout url2 (S (db_next_id db))) /\
    In o1 (db_orders (w_db w2)) /\ o_id o1 = db_next_id db /\
    In o2 (db_orders (w_db w2)) /\ o_id o2 = S (db_next_id db) /\
    List.length (db_orders (w_db w2)) = S (S (List.length (db_orders db))).
Proof.
  intros Hrun1 Hs1 Hrun2 Hs2.
  destruct (accepted_order_inv E cart customer delivery db r1 w1 Hrun1 Hs1)
    as (o1 & rows1 & s1 & Hr1 & Ho1 & Hid1 & _ & _ & _ & Hlen1 & _ & _ & _ & Hnext).
  destruct (accepted_order_inv E cart customer delivery (w_db w1) r2 w2 Hrun2 Hs2)
    as (o2 & rows2 & s2 & Hr2 & Ho2 & Hid2 & _ & _ & Hkept & Hlen2 & _).
  destruct (Hkept o1 Ho1) as (o1' & Ho1' & Hid1' & _).
  exists (session_url s1), (session_url s2), o1', o2.
  rewrite Hnext in Hr2, Hid2. rewrite Hlen1 in Hlen2.
  repeat split; try assumption. rewrite Hid1'. exact Hid1.
Qed.

(** The checkout of the scenario, twice. *)
Lemma repeated_checkout_example :
  List.length
    (db_orders
       (w_db (snd (invoke (handleOrder Scenario.calm (Some [Scenario.line "P1" 2])
                             (Some Scenario.customer) (Some Scenario.delivery))
                     (w_db (snd (Scenario.checkout Scenario.calm))))))) = 2.
Proof.
  destruct (repeated_checkout_duplicates Scenario.calm (Some [Scenario.line "P1" 2])
              (Some Scenario.customer) (Some Scenario.delivery) Scenario.shop
              (response 200 (JOrderCheckout "https://pay/cs_1" 1))
              (response 200 (JOrderCheckout "https://pay/cs_1" 2))
              (snd (Scenario.checkout Scenario.calm))
              (snd (invoke (handleOrder Scenario.calm (Some [Scenario.line "P1" 2])
                              (Some Scenario.customer) (Some Scenario.delivery))
                      (w_db (snd (Scenario.checkout Scenario.calm)))))
              eq_refl eq_refl eq_refl eq_refl)
    as (url1 & url2 & o1 & o2 & _ & _ & _ & _ & _ & _ & Hlen).
  exact Hlen.
Defined.

(** X11. Stripe is asked for a session only after the datastore has accepted
    the order and its items, and once.  There is one line item per order
    item, of the price snapshot and the quantity of the item; the metadata
    name the order; the session expires 1800 seconds after the second of
    its creation.  When the quantities of the items are integers and their
    line totals add up to a safe integer, what Stripe is asked to charge,
    the sum of unit amount times quantity over the line items, is the total
    of the order. *)
Theorem stripe_is_asked_the_order_total (E : env) (cart : option (list cart_item))
    (customer : option customer_info) (delivery : option delivery_info)
    (db : database) (out : outcome http_response) (w' : world)
    (p : session_params) (r : option string) :
  invoke (handleOrder E cart customer delivery) db = (out, w') ->
  In (Stripe p r) (w_calls w') ->
  exists pre ins rows last,
    w_calls w' = (pre ++ [Datastore (InsertOrder ins) None;
                          Datastore (InsertOrderItems rows) None;
                          Stripe p r; last])%list /\
    Forall (fun c => is_stripe_call c = false) pre /\
    is_stripe_call last = false /\
    map li_unit_amount (sp_line_items p)
      = map (fun it => JNumber (Num (it_unit_price_cents_snapshot it))) rows /\
    map li_quantity (sp_line_items p) = map it_qty rows /\
    (safe_rows rows = true ->
       oi_total_amount_cents ins = Num (line_items_total (sp_line_items p))) /\
    sp_metadata p = MetaOrder (db_next_id db) /\
    sp_mode p = "payment" /\
    sp_expires_at p = Some (Date_now E / 1000 + 1800)%Z.
Proof.
  intros Hrun Hin. unfold_checkout Hrun.
  split_run Hrun; injection Hrun as <- <-; find_call Hin.
  all: injection Hin as <- <-.
  all: match goal with
       | H : cart_loop _ (_ :: _) _ = inr _ |- _ =>
           destruct (cart_loop_result _ _ _ (db_next_id db) H)
             as (Htotal & Hu & Hq & _ & Hall)
       end.
  all: cbn [w_calls app]; eexists [_; _], _, _, _.
  all: split; [reflexivity|]; split; [repeat constructor|]; split; [reflexivity|].
  all: cbn [sp_line_items sp_metadata sp_mode sp_expires_at oi_total_amount_cents].
  all: split; [exact Hu|]; split; [exact Hq|].
  all: split; [|repeat split].
  all: intros Hsafe; rewrite Htotal, (line_items_of_rows _ _ Hu Hq).
  all: apply safe_rows_exact; [|exact Hsafe].
  all: eapply Forall_impl; [|exact Hall]; intros it [_ H]; exact H.
Qed.

(** The checkout of two units at 1500 cents and three units at 800 cents. *)
Lemma stripe_total_example :
  exists p r,
    In (Stripe p r) (w_calls (snd (Scenario.basket_checkout Scenario.calm))) /\
    line_items_total (sp_line_items p) = 5400%Z.
Proof.
  edestruct (stripe_is_asked_the_order_total Scenario.calm
               (Some Scenario.basket) (Some Scenario.customer)
               (Some Scenario.delivery) Scenario.shop
               (fst (Scenario.basket_checkout Scenario.calm))
               (snd (Scenario.basket_checkout Scenario.calm)))
    as (pre & ins & rows & last & Hcalls & _ & _ & _ & _ & Hexact & _).
  - apply surjective_pairing.
  - do 4 right. left. reflexivity.
  - assert (Hrows : safe_rows rows = true).
    { apply (f_equal (@rev call)) in Hcalls. rewrite rev_app_distr in Hcalls.
      vm_compute in Hcalls. injection Hcalls as _ Hrows _ _. subst rows.
      reflexivity. }
    specialize (Hexact Hrows).
    eexists _, _. split; [do 4 right; left; reflexivity|reflexivity].
Defined.

(** ** Donations *)

(** X12. An answer 200 of [handleDonation] means that the donation passed
    the validation (both names present, an amount that is truthy and not
    less than 100: when the amount is a number, it is at least 100) and is
    stored, [pending], under the id the answer carries, with the amount of
    the request as it came; Stripe was asked once, after the insert, for
    one line item of quantity 1 whose unit amount is that amount, in a
    session that names the donation and has no expiry of its own. *)
Theorem accepted_donation_is_stored (E : env) (donation : donation_info) (db : database)
    (resp : http_response) (w' : world) :
  invoke (handleDonation E donation) db = (Returned resp, w') ->
  statusCode resp = 200%Z ->
  exists d session p li uerr,
    donation_ok donation = true /\
    (forall z, amountCents donation = JNumber (Num z) -> (100 <= z)%Z) /\
    resp = response 200 (JDonationCheckout (session_url session) (db_next_id db)) /\
    In d (db_donations (w_db w')) /\
    d_id d = db_next_id db /\
    d_payment_status d = pending /\
    di_amount_cents (d_fields d) = amountCents donation /\
    w_calls w' = [Datastore (InsertDonation (d_fields d)) None; Stripe p None;
                  Datastore (UpdateDonations (EqId (db_next_id db))
                               (set_session (session_id session))) uerr] /\
    sp_line_items p = [li] /\
    li_unit_amount li = amountCents donation /\
    li_quantity li = JNumber (Num 1) /\
    sp_metadata p = MetaDonation (db_next_id db) /\
    sp_expires_at p = None.
Proof.
  intros Hrun Hstatus. unfold_checkout Hrun.
  split_run Hrun; (first [discriminate Hrun | injection Hrun as Hout Hw]);
    try (injection Hout as Hout); subst resp w'.
  all: cbn [statusCode response] in Hstatus; try discriminate Hstatus.
  all: match goal with
       | H1 : negb (truthy (don_firstName _)) = false,
         H2 : negb (truthy (don_lastName _)) = false,
         H3 : (negb (ToBoolean _) || js_lt _ (Num 100))%bool = false |- _ =>
           apply negb_false_iff in H1, H2;
           apply orb_false_iff in H3 as [H3 H4]; apply negb_false_iff in H3;
           assert (Hok : donation_ok donation = true)
             by (unfold donation_ok; rewrite H1, H2, H3, H4; reflexivity);
           assert (Hnum : forall z, amountCents donation = JNumber (Num z) -> (100 <= z)%Z)
             by (intros z Hz; rewrite Hz in H4; unfold js_lt in H4; cbn [ToNumber] in H4;
                 apply Z.ltb_ge in H4; exact H4)
       end.
  all: cbn [w_db w_calls app db_donations with_donations].
  - eexists _, _, _, _, _. split; [exact Hok|]. split; [exact Hnum|].
    split; [reflexivity|].
    split; [apply in_or_app; right; left; reflexivity|].
    repeat split.
  - eexists _, _, _, _, _. split; [exact Hok|]. split; [exact Hnum|].
    split; [reflexivity|].
    split.
    { apply (CheckoutProperties.updated_last_donation (EqId (db_next_id db))
               (set_session (session_id s))). cbn. apply Nat.eqb_refl. }
    repeat split.
Qed.

(** A donation of 20 euros. *)
Lemma accepted_donation_example :
  exists d,
    In d (db_donations (w_db (snd (Scenario.donate Scenario.calm)))) /\
    di_amount_cents (d_fields d) = JNumber (Num 2000).
Proof.
  destruct (accepted_donation_is_stored Scenario.calm Scenario.gift Scenario.shop
              (response 200 (JDonationCheckout "https://pay/cs_1" 1))
              (snd (Scenario.donate Scenario.calm)) eq_refl eq_refl)
    as (d & session & p & li & uerr & _ & _ & _ & Hd & _ & _ & Hstored & _).
  exists d. split; [exact Hd|]. rewrite Hstored. reflexivity.
Defined.

(** ** A record that cannot be created *)

(** X13. When the datastore rejects the insert of the order, or of the
    donation, the function logs the error and answers 500; that insert is
    its last call, the datastore is as it was and Stripe is not called. *)
Theorem failed_insert_stores_nothing (E : env) (db : database)
    (out : outcome http_response) (w' : world) (e : string) :
  (forall cart customer delivery ins,
     invoke (handleOrder E cart customer delivery) db = (out, w') ->
     In (Datastore (InsertOrder ins) (Some e)) (w_calls w') ->
     out = Returned (response 500 (JError "Erreur lors de la création de la commande")) /\
     w_db w' = db /\
     (exists pre, w_calls w' = (pre ++ [Datastore (InsertOrder ins) (Some e)])%list /\
                  Forall (fun c => is_write c = false) pre) /\
     Forall (fun c => is_stripe_call c = false) (w_calls w') /\
     w_console w' = [{| level := level_error;
                        args := [Str "Erreur création commande:"; ErrorObject e] |}]) /\
  (forall donation ins,
     invoke (handleDonation E donation) db = (out, w') ->
     In (Datastore (InsertDonation ins) (Some e)) (w_calls w') ->
     out = Returned (response 500 (JError "Erreur lors de la création du don")) /\
     w_db w' = db /\
     w_calls w' = [Datastore (InsertDonation ins) (Some e)] /\
     w_console w' = [{| level := level_error;
                        args := [Str "Erreur création don:"; ErrorObject e] |}]).
Proof.
  split.
  - intros cart customer delivery ins Hrun Hin. unfold_checkout Hrun.
    split_run Hrun; injection Hrun as <- <-; find_call Hin.
    injection Hin as <- <-. cbn [w_db w_calls w_console app].
    split; [reflexivity|]. split; [reflexivity|].
    split; [eexists [_; _]; split; [reflexivity|repeat constructor]|].
    split; [repeat constructor|reflexivity].
  - intros donation ins Hrun Hin. unfold_checkout Hrun.
    split_run Hrun; injection Hrun as <- <-; find_call Hin.
    injection Hin as <- <-. cbn [w_db w_calls w_console app].
    repeat split.
Qed.

(** The checkout and the donation when the datastore rejects these inserts. *)
Lemma failed_insert_example :
  w_db (snd (Scenario.checkout Scenario.headers_refused)) = Scenario.shop /\
  w_db (snd (Scenario.donate Scenario.headers_refused)) = Scenario.shop.
Proof.
  split.
  - edestruct (failed_insert_stores_nothing Scenario.headers_refused Scenario.shop
                 (fst (Scenario.checkout Scenario.headers_refused))
                 (snd (Scenario.checkout Scenario.headers_refused)))
      as [Horder _].
    edestruct (Horder (Some [Scenario.line "P1" 2]) (Some Scenario.customer)
                 (Some Scenario.delivery)) as (_ & Hdb & _).
    + apply surjective_pairing.
    + right. right. left. reflexivity.
    + exact Hdb.
  - edestruct (failed_insert_stores_nothing Scenario.headers_refused Scenario.shop
                 (fst (Scenario.donate Scenario.headers_refused))
                 (snd (Scenario.donate Scenario.headers_refused)))
      as [_ Hdonation].
    edestruct (Hdonation Scenario.gift) as (_ & Hdb & _).
    + apply surjective_pairing.
    + left. reflexivity.
    + exact Hdb.
Defined.

(** ** The first invalid line *)

Lemma cart_loop_skips_valid (db : database) (ps : list product)
    (pre rest : list cart_item) :
  (forall l, In l pre ->
     find (fun p => String.eqb (p_id p) (productId l)) ps = lookup_product db (productId l)) ->
  forallb (line_ok db) pre = true ->
  forall acc, exists acc', cart_loop ps (pre ++ rest)%list acc = cart_loop ps rest acc'.
Proof.
  induction pre as [|l pre IH]; intros Hfind Hok acc; [exists acc; reflexivity|].
  simpl in Hok. apply andb_prop in Hok as [Hl Hok].
  destruct (CheckoutProperties.line_ok_inv db l Hl) as (p & Hp & Hact & Hstock & Hqty).
  cbn [app cart_loop]. rewrite (Hfind l (or_introl eq_refl)), Hp, Hact. cbn [negb].
  rewrite Hstock, Hqty.
  apply IH; [|exact Hok]. intros l' Hl'. apply Hfind. right. exact Hl'.
Qed.



(** ** Values that are not numbers *)

Lemma js_add_NaN (x : number) : js_add x NaN = NaN /\ js_add NaN x = NaN.
Proof. destruct x; split; reflexivity. Qed.

Lemma cart_loop_keeps_NaN (ps : list product) (cart : list cart_item) :
  forall acc v,
    totalCents acc = NaN -> cart_loop ps cart acc = inr v -> totalCents v = NaN.
Proof.
  induction cart as [|l cart IH]; intros acc v Hacc; cbn [cart_loop].
  - intros H. injection H as <-. exact Hacc.
  - destruct (find _ ps) as [p|]; [|discriminate].
    destruct (negb (p_active p)); [discriminate|].
    destruct (js_lt (Num (p_stock_qty p)) (ToNumber (qty l))); [discriminate|].
    destruct (js_le (ToNumber (qty l)) (Num 0)); [discriminate|].
    apply IH. cbn [totalCents]. rewrite Hacc. apply js_add_NaN.
Qed.

(** A line whose quantity does not read as a number makes the total NaN. *)
Lemma cart_loop_NaN (ps : list product) (cart : list cart_item) (l : cart_item) :
  In l cart -> ToNumber (qty l) = NaN ->
  forall acc v, cart_loop ps cart acc = inr v -> totalCents v = NaN.
Proof.
  intros Hin Hnan. induction cart as [|l0 cart IH]; [destruct Hin|].
  intros acc v. cbn [cart_loop].
  destruct (find _ ps) as [p|]; [|discriminate].
  destruct (negb (p_active p)); [discriminate|].
  destruct (js_lt (Num (p_stock_qty p)) (ToNumber (qty l0))); [discriminate|].
  destruct (js_le (ToNumber (qty l0)) (Num 0)); [discriminate|].
  destruct Hin as [->|Hin].
  - apply cart_loop_keeps_NaN. cbn [totalCents]. rewrite Hnan.
    destruct (totalCents acc); reflexivity.
  - apply IH. exact Hin.
Qed.

(** X21. The validation does not reject a quantity that does not read as a
    number (a line without quantity, a text that is no numeral): neither
    comparison holds of NaN, so such a line passes whatever the stock, as
    soon as its product exists and is active.  When the lines of the cart
    pass and one of them has such a quantity, [handleOrder] sends the insert
    of an order whose total is NaN. *)
Theorem unreadable_quantity_is_accepted (E : env) (db : database)
    (cart : list cart_item) (l : cart_item)
    (customer : option customer_info) (delivery : option delivery_info)
    (out : outcome http_response) (w' : world) :
  ToNumber (qty l) = NaN ->
  (forall p, lookup_product db (productId l) = Some p -> p_active p = true ->
     line_ok db l = true) /\
  (reaches_products E db cart customer delivery ->
   forallb (line_ok db) cart = true ->
   In l cart ->
   invoke (handleOrder E (Some cart) customer delivery) db = (out, w') ->
   exists ins oerr rest,
     w_calls w' = Datastore (SelectDeliveryDate (delivery ?. dateId)) None
                  :: Datastore (SelectProductsIn (map productId cart)) None
                  :: Datastore (InsertOrder ins) oerr :: rest /\
     oi_total_amount_cents ins = NaN).
Proof.
  intros Hnan. split.
  { intros p Hp Hact. unfold line_ok. rewrite Hp, Hact, Hnan. reflexivity. }
  intros (Hf & Hne & Hd & Hp) Hok Hin Hrun.
  destruct (CheckoutProperties.fields_present_inv _ _ Hf)
    as (c & d & -> & -> & F1 & F2 & F3 & F4 & F5 & F6 & F7).
  destruct (CheckoutProperties.date_available_inv _ _ _ Hd) as (Hdr & dd & Hdd & Hact).
  remember (filter (fun p => existsb (String.eqb (p_id p)) (map productId cart))
                   (db_products db)) as ps eqn:Hps.
  destruct (cart_loop_skips_valid db ps cart []) with (acc := no_lines)
    as (v & Hloop).
  { intros l' Hl'. rewrite Hps. apply CheckoutProperties.find_fetched.
    apply in_map. exact Hl'. }
  { exact Hok. }
  rewrite app_nil_r in Hloop. cbn [cart_loop] in Hloop.
  pose proof (cart_loop_NaN ps cart l Hin Hnan no_lines v Hloop) as Htotal.
  cbn [optchain] in *.
  unfold handleOrder in Hrun. unfold_run Hrun. cbn [optchain] in Hrun.
  rewrite F1, F2, F3, F4, F5, F6, F7, Hdr in Hrun.
  destruct cart as [|l0 cart0] eqn:Hcart; [congruence|]. rewrite <- Hcart in *.
  reduce_run Hrun. rewrite Hdd in Hrun. reduce_run Hrun.
  rewrite Hact, Hp in Hrun. reduce_run Hrun. rewrite <- Hps, Hloop in Hrun.
  split_run Hrun; injection Hrun as <- <-; cbn [w_calls app].
  all: eexists _, _, _; split; [reflexivity|exact Htotal].
Qed.

(** Two units of [P1], and a line of [P2] without quantity. *)
Lemma unreadable_quantity_example :
  exists ins oerr rest,
    w_calls (snd Scenario.vague_checkout) =
      Datastore (SelectDeliveryDate (Some "D1")) None
      :: Datastore (SelectProductsIn ["P1"; "P2"]) None
      :: Datastore (InsertOrder ins) oerr :: rest /\
    oi_total_amount_cents ins = NaN /\
    fst Scenario.vague_checkout
      = Returned (response 200 (JOrderCheckout "https://pay/cs_1" 1)).
Proof.
  destruct (unreadable_quantity_is_accepted Scenario.calm Scenario.shop
              Scenario.vague_cart Scenario.vague_line
              (Some Scenario.customer) (Some Scenario.delivery)
              (fst Scenario.vague_checkout) (snd Scenario.vague_checkout) eq_refl)
    as [_ Hrun].
  destruct Hrun as (ins & oerr & rest & Hcalls & Htotal).
  - repeat split; try reflexivity. discriminate.
  - reflexivity.
  - right. left. reflexivity.
  - apply surjective_pairing.
  - exists ins, oerr, rest. split; [exact Hcalls|]. split; [exact Htotal|reflexivity].
Defined.

(** X22. [handleDonation] accepts an amount that is truthy and does not read
    as a number (a text that is no numeral, an object): the minimum is not
    enforced on it.  With both names present, the first request is the
    insert of the donation with this amount as it came; when the datastore
    accepts it and Stripe creates the session, the answer is 200 and the
    donation is stored with this amount. *)
Theorem unreadable_amount_is_accepted (E : env) (donation : donation_info)
    (db : database) (out : outcome http_response) (w' : world) :
  truthy (don_firstName donation) = true ->
  truthy (don_lastName donation) = true ->
  ToBoolean (amountCents donation) = true ->
  ToNumber (amountCents donation) = NaN ->
  invoke (handleDonation E donation) db = (out, w') ->
  donation_ok donation = true /\
  exists ins err rest,
    w_calls w' = Datastore (InsertDonation ins) err :: rest /\
    di_amount_cents ins = amountCents donation /\
    (err = None ->
     (exists p, In (Stripe p None) (w_calls w')) ->
     exists url d,
       out = Returned (response 200 (JDonationCheckout url (db_next_id db))) /\
       In d (db_donations (w_db w')) /\ d_id d = db_next_id db /\
       di_amount_cents (d_fields d) = amountCents donation).
Proof.
  intros H1 H2 H3 H4 Hrun. split.
  { unfold donation_ok. rewrite H1, H2, H3, H4. reflexivity. }
  unfold handleDonation in Hrun. unfold_run Hrun.
  rewrite H1, H2, H3, H4 in Hrun.
  change (js_lt NaN (Num 100)) with false in Hrun. cbn [negb orb] in Hrun.
  split_run Hrun; injection Hrun as <- <-; cbn [w_calls w_db app].
  all: eexists _, _, _; split; [reflexivity|]; split; [reflexivity|].
  all: intros Herr [p Hin]; try discriminate Herr; find_call Hin.
  all: cbn [db_donations with_donations].
  - eexists _, _. split; [reflexivity|].
    split; [apply in_or_app; right; left; reflexivity|]. split; reflexivity.
  - eexists _, _. split; [reflexivity|].
    split.
    { apply (CheckoutProperties.updated_last_donation (EqId (db_next_id db))
               (set_session (session_id s))). cbn. apply Nat.eqb_refl. }
    split; reflexivity.
Qed.

(** A donation whose amount is the text [abc]. *)
Lemma unreadable_amount_example :
  fst (invoke (handleDonation Scenario.calm Scenario.odd_gift) Scenario.shop)
  = Returned (response 200 (JDonationCheckout "https://pay/cs_1" 1)) /\
  map (fun d => di_amount_cents (d_fields d))
      (db_donations (w_db (snd (invoke (handleDonation Scenario.calm Scenario.odd_gift)
                                  Scenario.shop))))
  = [JString "abc" NaN].
Proof.
  destruct (unreadable_amount_is_accepted Scenario.calm Scenario.odd_gift Scenario.shop
              (fst (invoke (handleDonation Scenario.calm Scenario.odd_gift) Scenario.shop))
              (snd (invoke (handleDonation Scenario.calm Scenario.odd_gift) Scenario.shop))
              eq_refl eq_refl eq_refl eq_refl)
    as [_ (ins & err & rest & _)].
  - apply surjective_pairing.
  - split; reflexivity.
Defined.

End CheckoutCoverage.

(** * Further properties of stripe_webhook.js *)

Module WebhookCoverage.

Import StripeWebhook.

Ltac unfold_webhook H :=
  unfold handler, route, handlePaymentConfirmed, handlePaymentFailed, handleRefund in H;
  unfold_run H.

(** ** What every delivery does *)

(** X15. The webhook always ends with an answer (it never throws), of status
    200, 400 or 405 and without headers.  Whatever the notification, it sends
    at most one request to the datastore, which is a call of one of the three
    procedures or the update that marks the orders of a payment intent as
    refunded; it never inserts or deletes a row and never calls Stripe for a
    session. *)
Theorem webhook_sends_at_most_one_request (E : env) (event : http_event) (db : database) :
  exists resp,
    fst (invoke (handler E event) db) = Returned resp /\
    resp_headers resp = [] /\
    (statusCode resp = 200 \/ statusCode resp = 400 \/ statusCode resp = 405)%Z /\
    List.length (w_calls (snd (invoke (handler E event) db))) <= 1 /\
    Forall (fun c => webhook_call c = true)
           (w_calls (snd (invoke (handler E event) db))).
Proof.
  destruct (invoke (handler E event) db) as [out w'] eqn:Hrun. cbn [fst snd].
  unfold_webhook Hrun.
  split_run Hrun; injection Hrun as <- <-.
  all: eexists; split; [reflexivity|]; split; [reflexivity|].
  all: cbn [statusCode plain w_calls app List.length].
  all: split; [first [ left; reflexivity | right; left; reflexivity
                     | right; right; reflexivity ]|].
  all: split; [repeat constructor|repeat constructor].
Qed.

(** ** Events the webhook has nothing to do for *)

(** X16. A verified event whose type is none of the four the webhook acts on
    is logged as ignored and acknowledged with [{received: true}]; nothing is
    sent to the datastore. *)
Theorem other_events_are_ignored (E : env) (event : http_event) (db : database)
    (stripeEvent : stripe_event) :
  httpMethod event = "POST" ->
  stripe_constructEvent E (body event) (header "stripe-signature" (headers event))
    (STRIPE_WEBHOOK_SECRET E) = inr stripeEvent ->
  routed_type (ev_type stripeEvent) = false ->
  invoke (handler E event) db =
    (Returned (plain 200 (Json JReceived)),
     {| w_db := db;
        w_calls := [];
        w_console :=
          [{| level := level_log;
              args := [Str ("✅ Événement Stripe reçu : " ++ ev_type stripeEvent)] |};
           {| level := level_log;
              args := [Str ("Événement ignoré : " ++ ev_type stripeEvent)] |}] |}).
Proof.
  intros Hpost Hsig Htype. unfold routed_type in Htype.
  apply orb_false_iff in Htype as [Htype H4].
  apply orb_false_iff in Htype as [Htype H3].
  apply orb_false_iff in Htype as [H1 H2].
  unfold invoke, handler, route.
  rewrite Hpost, Hsig, String.eqb_refl, H1, H2, H3, H4. reflexivity.
Qed.

(** A notification of a created customer. *)
Lemma other_events_example :
  w_calls (snd (Scenario.deliver Scenario.confirming
                  (Scenario.notification "customer.created") Scenario.awaiting_payment))
  = [].
Proof.
  unfold Scenario.deliver.
  rewrite (other_events_are_ignored Scenario.confirming
             (Scenario.notification "customer.created") Scenario.awaiting_payment
             {| ev_type := "customer.created"; ev_object := Scenario.paid_session |}
             eq_refl eq_refl eq_refl).
  reflexivity.
Defined.

(** X17. A completed-payment notification whose session metadata name
    neither an order nor a donation confirms nothing: a warning is logged,
    nothing is sent to the datastore, and the notification is acknowledged
    with [{received: true}]. *)
Theorem untyped_payment_confirms_nothing (E : env) (event : http_event) (db : database)
    (stripeEvent : stripe_event) :
  httpMethod event = "POST" ->
  stripe_constructEvent E (body event) (header "stripe-signature" (headers event))
    (STRIPE_WEBHOOK_SECRET E) = inr stripeEvent ->
  ev_type stripeEvent = "checkout.session.completed" ->
  opt_string_eqb (so_metadata (ev_object stripeEvent) ?. md_type) "order" = false ->
  opt_string_eqb (so_metadata (ev_object stripeEvent) ?. md_type) "donation" = false ->
  exists w',
    invoke (handler E event) db = (Returned (plain 200 (Json JReceived)), w') /\
    w_calls w' = [] /\
    w_db w' = db /\
    In {| level := level_warn;
          args := [Str ("⚠️ Type inconnu dans metadata: "
                        ++ show (so_metadata (ev_object stripeEvent) ?. md_type))] |}
       (w_console w').
Proof.
  intros Hpost Hsig Htype Horder Hdonation.
  unfold invoke, handler, route, handlePaymentConfirmed.
  rewrite Hpost, Hsig, Htype, !String.eqb_refl, Horder, Hdonation.
  eexists. split; [reflexivity|]. repeat split.
  cbn. right. right. left. reflexivity.
Qed.

(** A completed session without metadata. *)
Lemma untyped_payment_example :
  exists w',
    Scenario.deliver (Scenario.environment Scenario.never true Scenario.untyped_session)
      (Scenario.notification "checkout.session.completed") Scenario.awaiting_payment
    = (Returned (plain 200 (Json JReceived)), w') /\
    w_db w' = Scenario.awaiting_payment.
Proof.
  destruct (untyped_payment_confirms_nothing
              (Scenario.environment Scenario.never true Scenario.untyped_session)
              (Scenario.notification "checkout.session.completed")
              Scenario.awaiting_payment
              {| ev_type := "checkout.session.completed";
                 ev_object := Scenario.untyped_session |}
              eq_refl eq_refl eq_refl eq_refl eq_refl)
    as (w' & Hrun & _ & Hdb & _).
  exists w'. split; [exact Hrun|exact Hdb].
Defined.

(** ** Donations, expired sessions and failed payments *)

(** X18. The completed-payment notification of a donation makes one call, of
    [confirm_donation_payment] with the id of the session and the payment
    intent.  When the datastore answers it, the notification is acknowledged
    with [{received: true}] whatever [success] is (a result without success
    is not even logged); when it answers with an error, the error is thrown,
    logged, and acknowledged as an internal error. *)
Theorem donation_payment_is_confirmed (E : env) (event : http_event) (db : database)
    (stripeEvent : stripe_event) :
  httpMethod event = "POST" ->
  stripe_constructEvent E (body event) (header "stripe-signature" (headers event))
    (STRIPE_WEBHOOK_SECRET E) = inr stripeEvent ->
  ev_type stripeEvent = "checkout.session.completed" ->
  so_metadata (ev_object stripeEvent) ?. md_type = Some "donation" ->
  exists resp err w',
    invoke (handler E event) db = (Returned resp, w') /\
    w_calls w' = [Datastore (Rpc "confirm_donation_payment"
                               (so_id (ev_object stripeEvent))
                               (so_payment_intent (ev_object stripeEvent))) err] /\
    (err = None ->
       resp = plain 200 (Json JReceived) /\
       w_db w' = snd (rpc_other E "confirm_donation_payment"
                        (so_id (ev_object stripeEvent))
                        (so_payment_intent (ev_object stripeEvent)) db)) /\
    (forall e, err = Some e ->
       resp = plain 200 (Text "Webhook reçu avec erreur interne") /\
       w_db w' = db /\
       fst (handlePaymentConfirmed E (ev_object stripeEvent) (received stripeEvent db))
         = Thrown e).
Proof.
  intros Hpost Hsig Htype Hmeta.
  unfold invoke, handler, route, handlePaymentConfirmed.
  rewrite Hpost, Hsig, Htype, !String.eqb_refl, Hmeta.
  cbn [negb opt_string_eqb]. simpl (String.eqb "donation" _).
  unfold bind, attempt, console, ret, throw, supabase.
  cbn [fresh w_db w_calls w_console app received ev_type].
  destruct (db_rejects E _) as [e|] eqn:Hrej.
  - eexists _, _, _. split; [reflexivity|]. split; [reflexivity|].
    split; [intros H; discriminate H|].
    intros e' He'. injection He' as <-. repeat split.
  - cbn [execute]. simpl (String.eqb "confirm_donation_payment" _).
    destruct (rpc_other E _ _ _ db) as [r db'].
    cbn [error reply_ok data snd].
    destruct (data_success (RpcData r)).
    + eexists _, _, _. split; [reflexivity|]. split; [reflexivity|].
      split; [intros _; split; reflexivity|].
      intros e He. discriminate He.
    + eexists _, _, _. split; [reflexivity|]. split; [reflexivity|].
      split; [intros _; split; reflexivity|].
      intros e He. discriminate He.
Qed.

(** The completed session of a donation. *)
Lemma donation_payment_example :
  fst (Scenario.deliver
         (Scenario.environment Scenario.never true Scenario.donation_session)
         (Scenario.notification "checkout.session.completed") Scenario.settled)
  = Returned (plain 200 (Json JReceived)).
Proof.
  destruct (donation_payment_is_confirmed
              (Scenario.environment Scenario.never true Scenario.donation_session)
              (Scenario.notification "checkout.session.completed") Scenario.settled
              {| ev_type := "checkout.session.completed";
                 ev_object := Scenario.donation_session |}
              eq_refl eq_refl eq_refl eq_refl)
    as (resp & err & w' & Hrun & Hcalls & Hok & _).
  unfold Scenario.deliver. rewrite Hrun. cbn [fst]. f_equal. apply Hok.
  assert (H : w_calls w' =
              w_calls (snd (Scenario.deliver
                              (Scenario.environment Scenario.never true
                                 Scenario.donation_session)
                              (Scenario.notification "checkout.session.completed")
                              Scenario.settled)))
    by (unfold Scenario.deliver; rewrite Hrun; reflexivity).
  rewrite Hcalls in H. injection H as H. exact H.
Defined.

(** The run of the handler on a verified event that leads to
    [handlePaymentFailed]. *)
Lemma marked_failed_run (E : env) (event : http_event) (db : database)
    (stripeEvent : stripe_event) (sessionId : string) :
  httpMethod event = "POST" ->
  stripe_constructEvent E (body event) (header "stripe-signature" (headers event))
    (STRIPE_WEBHOOK_SECRET E) = inr stripeEvent ->
  route E stripeEvent = handlePaymentFailed E sessionId ->
  exists resp err w',
    invoke (handler E event) db = (Returned resp, w') /\
    w_calls w' = [Datastore (Rpc "mark_payment_failed" sessionId None) err] /\
    (err = None ->
       resp = plain 200 (Json JReceived) /\
       w_db w' = snd (rpc_other E "mark_payment_failed" sessionId None db)) /\
    (forall e, err = Some e ->
       resp = plain 200 (Text "Webhook reçu avec erreur interne") /\ w_db w' = db).
Proof.
  intros Hpost Hsig Hroute. unfold invoke, handler.
  rewrite Hpost, Hsig, String.eqb_refl, Hroute. cbn [negb].
  unfold handlePaymentFailed, bind, attempt, console, ret, throw, supabase.
  cbn [fresh w_db w_calls w_console app].
  destruct (db_rejects E _) as [e|] eqn:Hrej.
  - eexists _, _, _. split; [reflexivity|]. split; [reflexivity|].
    split; [intros H; discriminate H|]. intros e' _. split; reflexivity.
  - cbn [execute]. simpl (String.eqb "mark_payment_failed" _).
    destruct (rpc_other E _ _ _ db) as [r db'].
    eexists _, _, _. split; [reflexivity|]. split; [reflexivity|].
    split; [intros _; split; reflexivity|]. intros e He. discriminate He.
Qed.

(** X19. The notification of an expired session makes one call, of
    [mark_payment_failed] with the id of the session; the notification of a
    failed payment intent makes the same call with the session id of its
    metadata, and no call at all when its metadata name no session.  An
    answered call is acknowledged with [{received: true}]; an error of the
    procedure is acknowledged as an internal error and changes nothing. *)
Theorem failed_payment_is_marked (E : env) (event : http_event) (db : database)
    (stripeEvent : stripe_event) :
  httpMethod event = "POST" ->
  stripe_constructEvent E (body event) (header "stripe-signature" (headers event))
    (STRIPE_WEBHOOK_SECRET E) = inr stripeEvent ->
  (ev_type stripeEvent = "checkout.session.expired" \/
   ev_type stripeEvent = "payment_intent.payment_failed") ->
  (forall sessionId,
     ev_type stripeEvent = "checkout.session.expired" /\
     sessionId = so_id (ev_object stripeEvent) \/
     ev_type stripeEvent = "payment_intent.payment_failed" /\
     so_metadata (ev_object stripeEvent) ?. md_session_id = Some sessionId /\
     sessionId <> EmptyString ->
     exists resp err w',
       invoke (handler E event) db = (Returned resp, w') /\
       w_calls w' = [Datastore (Rpc "mark_payment_failed" sessionId None) err] /\
       (err = None ->
          resp = plain 200 (Json JReceived) /\
          w_db w' = snd (rpc_other E "mark_payment_failed" sessionId None db)) /\
       (forall e, err = Some e ->
          resp = plain 200 (Text "Webhook reçu avec erreur interne") /\ w_db w' = db)) /\
  (ev_type stripeEvent = "payment_intent.payment_failed" ->
   truthy (so_metadata (ev_object stripeEvent) ?. md_session_id) = false ->
   invoke (handler E event) db
     = (Returned (plain 200 (Json JReceived)), received stripeEvent db)).
Proof.
  intros Hpost Hsig _. split.
  - intros sessionId [[Htype ->]|(Htype & Hmeta & Hne)];
      apply (marked_failed_run E event db stripeEvent _ Hpost Hsig);
      unfold route; rewrite Htype; simpl (String.eqb _ _); [reflexivity|].
    rewrite Hmeta. destruct sessionId; [contradiction Hne; reflexivity|reflexivity].
  - intros Htype Hmeta. unfold invoke, handler, route, received.
    rewrite Hpost, Hsig, String.eqb_refl, Htype. simpl (String.eqb _ _). cbn [negb].
    destruct (so_metadata (ev_object stripeEvent) ?. md_session_id) as [[|a s]|];
      try discriminate Hmeta; reflexivity.
Qed.

(** The failed payment intent of the session [cs_1]. *)
Lemma failed_payment_example :
  exists resp err w',
    Scenario.deliver (Scenario.environment Scenario.never true Scenario.failed_intent)
      (Scenario.notification "payment_intent.payment_failed") Scenario.awaiting_payment
    = (Returned resp, w') /\
    w_calls w' = [Datastore (Rpc "mark_payment_failed" "cs_1" None) err].
Proof.
  destruct (failed_payment_is_marked
              (Scenario.environment Scenario.never true Scenario.failed_intent)
              (Scenario.notification "payment_intent.payment_failed")
              Scenario.awaiting_payment
              {| ev_type := "payment_intent.payment_failed";
                 ev_object := Scenario.failed_intent |}
              eq_refl eq_refl (or_intror eq_refl)) as [Hmarked _].
  destruct (Hmarked "cs_1") as (resp & err & w' & Hrun & Hcalls & _).
  - right. split; [reflexivity|]. split; [reflexivity|discriminate].
  - exists resp, err, w'. split; [exact Hrun|exact Hcalls].
Defined.

(** ** Refunds that record nothing *)

(** X20. A charge-refunded notification is acknowledged with
    [{received: true}] also when it records nothing: without payment intent
    nothing is sent to the datastore, and when the datastore rejects the
    update the error is logged and not thrown, so that the answer is not
    that of an internal error, and no order changes. *)
Theorem unrecorded_refund_is_acknowledged (E : env) (event : http_event) (db : database)
    (stripeEvent : stripe_event) :
  httpMethod event = "POST" ->
  stripe_constructEvent E (body event) (header "stripe-signature" (headers event))
    (STRIPE_WEBHOOK_SECRET E) = inr stripeEvent ->
  ev_type stripeEvent = "charge.refunded" ->
  (truthy (so_payment_intent (ev_object stripeEvent)) = false ->
   invoke (handler E event) db
     = (Returned (plain 200 (Json JReceived)), received stripeEvent db)) /\
  (forall paymentIntentId e,
     so_payment_intent (ev_object stripeEvent) = Some paymentIntentId ->
     paymentIntentId <> EmptyString ->
     db_rejects E (refund_request E paymentIntentId) = Some e ->
     exists w',
       invoke (handler E event) db = (Returned (plain 200 (Json JReceived)), w') /\
       w_db w' = db /\
       w_calls w' = [Datastore (refund_request E paymentIntentId) (Some e)] /\
       In {| level := level_error;
             args := [Str "❌ Erreur mise à jour remboursement:"; ErrorObject e] |}
          (w_console w')).
Proof.
  intros Hpost Hsig Htype. split.
  - intros Hpi. unfold invoke, handler, route, handleRefund, received.
    rewrite Hpost, Hsig, String.eqb_refl, Htype. simpl (String.eqb _ _). cbn [negb].
    destruct (so_payment_intent (ev_object stripeEvent)) as [[|a s]|];
      try discriminate Hpi; reflexivity.
  - intros paymentIntentId e Hpi Hne Hrej. unfold invoke, handler, route, handleRefund.
    rewrite Hpost, Hsig, String.eqb_refl, Htype, Hpi. simpl (String.eqb _ _). cbn [negb].
    destruct paymentIntentId as [|a s]; [contradiction Hne; reflexivity|].
    unfold refund_request in Hrej.
    unfold bind, attempt, console, ret, supabase. rewrite Hrej.
    eexists. split; [reflexivity|]. repeat split.
    cbn. right. left. reflexivity.
Qed.

(** The refund of the paid order when the datastore rejects the update. *)
Lemma unrecorded_refund_example :
  exists w',
    Scenario.deliver Scenario.refunds_refused (Scenario.notification "charge.refunded")
      Scenario.settled = (Returned (plain 200 (Json JReceived)), w') /\
    w_db w' = Scenario.settled.
Proof.
  destruct (unrecorded_refund_is_acknowledged Scenario.refunds_refused
              (Scenario.notification "charge.refunded") Scenario.settled
              {| ev_type := "charge.refunded";
                 ev_object := Scenario.refunded_order_charge |}
              eq_refl eq_refl eq_refl) as [_ Hrejected].
  destruct (Hrejected "pi_1" "unavailable" eq_refl) as (w' & Hrun & Hdb & _).
  - discriminate.
  - reflexivity.
  - exists w'. split; [exact Hrun|exact Hdb].
Defined.

End WebhookCoverage.
